(** * On-chain token-transfer fetchers (src/services/onchain.js)

    A shallow embedding of the fetch layer of the watch-list application:
    the transport helper [fetchJSON], the record normaliser
    [normalizeTokenTx], the two provider adapters
    [fetchEtherscanTokenTransfers] and [fetchCovalentTokenTransfers], and
    the public entry point [fetchTokenTransfers]; and of the component
    that calls it: [formatAmount], [loadTransfers], [addAddress] and
    [removeItem].

    The JavaScript is modelled with explicit state passing: a [world]
    carries the log of network requests issued so far and the number of
    clock readings taken, and every operation returns either a value or a
    thrown exception together with the world it leaves behind. *)

From Stdlib Require Import List String Ascii ZArith Bool Lia.
From Stdlib Require Import DecimalString.
From Stdlib Require Import Sorted Permutation.
Import ListNotations.
Local Open Scope string_scope.
Local Open Scope Z_scope.
#[local] Set Warnings "-register-all".

(** ** JavaScript values as the program sees them

    The values that reach the program are what [JSON.parse] produces,
    plus [undefined] for an absent property.  A number is a double:
    [JNum n] when its value is the integer [n], [JFrac num den] when its
    value [num/den] (in lowest terms) is not an integer.  Strings are
    sequences of 8-bit characters. *)

Inductive jsval : Type :=
| JUndefined
| JNull
| JBool (b : bool)
| JNum (n : Z)
| JStr (s : string)
| JArr (elems : list jsval)
| JObj (props : list (string * jsval))
| JFrac (num : Z) (den : positive).

(** The result of a numeric conversion: [NaN], an integer, a finite
    number that is not an integer (by its exact value [num/den]), or one
    of the two infinities. *)
Inductive number : Type :=
| NaN
| Int (z : Z)
| Frac (num : Z) (den : positive)
| Inf (negative : bool).

(** Exceptions.  [Error] is what the program itself constructs with
    [new Error(message)]; [TypeError] is raised by the language (property
    read on [null], call of a non-function, iteration of a non-iterable,
    failed conversion to a primitive); [Rejected] stands for whatever the
    network layer rejects with (connection failure, malformed body). *)
Inductive exn : Type :=
| Error (message : string)
| TypeError
| Rejected (reason : string).

Inductive result (A : Type) : Type :=
| Ok (a : A)
| Throw (e : exn).
Arguments Ok {A} a.
Arguments Throw {A} e.

(** ** Equality tests *)

Definition string_eqb (a b : string) : bool := String.eqb a b.

(** ** Truthiness and property access *)

(** [ToBoolean]: [undefined], [null], [false], [0] and the empty string
    are falsy; every object and array is truthy. *)
Definition truthy (v : jsval) : bool :=
  match v with
  | JUndefined | JNull => false
  | JBool b => b
  | JNum n => negb (n =? 0)
  | JStr s => negb (string_eqb s "")
  | JArr _ | JObj _ => true
  | JFrac num _ => negb (num =? 0)
  end.

(** [a || b] *)
Definition or_else (a b : jsval) : jsval := if truthy a then a else b.

Fixpoint lookup (k : string) (props : list (string * jsval)) : jsval :=
  match props with
  | [] => JUndefined
  | (k', v) :: rest => if string_eqb k k' then v else lookup k rest
  end.

(** [v.k].  Reading a property of [null] or [undefined] throws; an object
    yields its own property or [undefined]; a primitive or an array has
    none of the property names this program reads. *)
Definition get (v : jsval) (k : string) : result jsval :=
  match v with
  | JUndefined | JNull => Throw TypeError
  | JObj props => Ok (lookup k props)
  | _ => Ok JUndefined
  end.

(** [v?.k] *)
Definition get_opt (v : jsval) (k : string) : jsval :=
  match v with
  | JObj props => lookup k props
  | _ => JUndefined
  end.

(** [Array.isArray(v)] *)
Definition isArray (v : jsval) : bool :=
  match v with JArr _ => true | _ => false end.

(** [a === b] where [b] is a string literal. *)
Definition strict_eq_str (a : jsval) (lit : string) : bool :=
  match a with JStr s => string_eqb s lit | _ => false end.

(** ** Host built-ins

    Conversions whose full definition lives in the language standard
    rather than in the program.  The fragments the program's ordinary
    inputs exercise are defined below; the rest is left to the host. *)

Record Host : Type := {
  (** [Number(s)] for a numeric-looking string outside the fragment below *)
  StringToNumber_rest : string -> number;
  (** [String(n)] for a number printed in exponent notation *)
  NumberToString_rest : Z -> string;
  (** [String(x)] for a number [x = num/den] that is not an integer *)
  FractionToString : Z -> positive -> string;
  (** double arithmetic on a number [x = num/den] that is not an integer,
      where the result is rounded: [x * 1000] and [x + k] *)
  frac_times1000 : Z -> positive -> number;
  frac_plus : Z -> positive -> Z -> number;
  (** [String([].sort)], the text of the built-in sort method *)
  native_sort_text : string;
  (** conversion of an object or array to a primitive string; [None]
      when the conversion throws a [TypeError] *)
  ToPrimitive : jsval -> option string;
  (** [Date.parse(s)] *)
  Date_parse : string -> number;
  (** [JSON.stringify(v)]: a string, or [None] for [undefined] *)
  JSON_stringify : jsval -> option string
}.

(** Characters that can occur in a numeric string: white space, digits,
    sign, dot, exponent marker, the letters of [Infinity], and the radix
    prefixes with their digits.  Characters outside ASCII are left to the
    host. *)
Definition numeric_char (c : ascii) : bool :=
  let n := Z.of_N (N_of_ascii c) in
  (128 <=? n) || ((9 <=? n) && (n <=? 13)) || (n =? 32)
  || existsb (Ascii.eqb c) (list_ascii_of_string "0123456789+-.eEInfityxXoObBaAcCdDfF").

(** The value of a non-empty run of decimal digits. *)
Definition digits_value (s : string) : option Z :=
  match NilZero.uint_of_string s with
  | Some d => Some (Z.of_uint d)
  | None => None
  end.

(** [Number(s)] on a string: a run of decimal digits that a double holds
    exactly is its value; a string with a character no numeric literal
    contains is [NaN]. *)
Definition StringToNumber (h : Host) (s : string) : number :=
  match digits_value s with
  | Some z =>
      if z <=? 2 ^ 53 then Int z else StringToNumber_rest h s
  | None =>
      if forallb numeric_char (list_ascii_of_string s)
      then StringToNumber_rest h s
      else NaN
  end.

(** [Number(v)] *)
Definition ToNumber (h : Host) (v : jsval) : result number :=
  match v with
  | JUndefined => Ok NaN
  | JNull => Ok (Int 0)
  | JBool b => Ok (Int (if b then 1 else 0))
  | JNum n => Ok (Int n)
  | JStr s => Ok (StringToNumber h s)
  | JArr _ | JObj _ =>
      match ToPrimitive h v with
      | Some s => Ok (StringToNumber h s)
      | None => Throw TypeError
      end
  | JFrac num den => Ok (Frac num den)
  end.

(** [String(n)]: the decimal digits of an integer a double holds exactly *)
Definition NumberToString (h : Host) (n : Z) : string :=
  if Z.abs n <=? 2 ^ 53
  then NilZero.string_of_int (Z.to_int n)
  else NumberToString_rest h n.

(** [String(v)], as a template literal applies it *)
Definition ToString (h : Host) (v : jsval) : result string :=
  match v with
  | JUndefined => Ok "undefined"
  | JNull => Ok "null"
  | JBool b => Ok (if b then "true" else "false")
  | JNum n => Ok (NumberToString h n)
  | JStr s => Ok s
  | JArr _ | JObj _ =>
      match ToPrimitive h v with
      | Some s => Ok s
      | None => Throw TypeError
      end
  | JFrac num den => Ok (FractionToString h num den)
  end.

(** [new Date(t)] keeps a time value within +-8.64e15 ms, dropping its
    fraction, and is an invalid date ([NaN]) otherwise. *)
Definition new_Date (t : number) : number :=
  match t with
  | NaN => NaN
  | Int z => if Z.abs z <=? 8640000000000000 then Int z else NaN
  | Frac num den =>
      if Z.abs num <=? 8640000000000000 * Z.pos den
      then Int (Z.quot num (Z.pos den)) else NaN
  | Inf _ => NaN
  end.

(** [n * 1000].  The product is only ever passed to [new_Date]: whenever
    the double product of an integer would round, its magnitude exceeds
    2^53 and the date is invalid either way. *)
Definition times1000 (h : Host) (n : number) : number :=
  match n with
  | NaN => NaN
  | Int z => Int (z * 1000)
  | Frac num den => frac_times1000 h num den
  | Inf negative => Inf negative
  end.

(** ** The regular expression [/No transactions/i] *)

(** Case folding of the matcher: ASCII letters fold to upper case, and no
    character outside ASCII folds to an ASCII one. *)
Definition canonicalize (c : ascii) : ascii :=
  let n := N_of_ascii c in
  if ((97 <=? n) && (n <=? 122))%N then ascii_of_N (n - 32) else c.

Fixpoint prefix_ci (pat s : string) : bool :=
  match pat, s with
  | EmptyString, _ => true
  | String p pat', String c s' =>
      Ascii.eqb (canonicalize p) (canonicalize c) && prefix_ci pat' s'
  | String _ _, EmptyString => false
  end.

Fixpoint search_ci (pat s : string) : bool :=
  prefix_ci pat s ||
  match s with
  | EmptyString => false
  | String _ s' => search_ci pat s'
  end.

(** [/No transactions/i.test(s)] *)
Definition no_transactions_test (s : string) : bool :=
  search_ci "No transactions" s.

(** ** The environment and the world

    The environment is fixed for the lifetime of the process: the two
    credentials read from [process.env], the network, the clock and the
    host.  The world is what a call can change: the requests sent so far
    and how many times the clock has been read. *)

Record request : Type := {
  url : string;
  (** the [headers] of the [init] argument, when one is passed *)
  init : option (list (string * string))
}.

Record response : Type := {
  ok : bool;
  status : Z;
  (** [await res.text()] *)
  text : result string;
  (** [await res.json()] *)
  json : result jsval
}.

Record env : Type := {
  etherscanKey : option string;
  covalentKey : option string;
  (** [fetch(url, init)]: a response, or a rejection *)
  net : request -> result response;
  (** the value of the k-th call of [Date.now()] *)
  clock : nat -> Z;
  host : Host
}.

Record world : Type := {
  requests : list request;
  ticks : nat
}.

(** A credential is usable when it is set and not the empty string. *)
Definition configured (k : option string) : bool :=
  match k with
  | Some s => negb (string_eqb s "")
  | None => false
  end.

(** [`${k}`] for a credential *)
Definition key_text (k : option string) : string :=
  match k with
  | Some s => s
  | None => "undefined"
  end.

(** Computations: a value or an exception, and the world left behind. *)
Definition M (A : Type) : Type := world -> result A * world.

Definition ret {A} (a : A) : M A := fun w => (Ok a, w).

Definition throw {A} (e : exn) : M A := fun w => (Throw e, w).

Definition bind {A B} (m : M A) (f : A -> M B) : M B :=
  fun w =>
    match m w with
    | (Ok a, w') => f a w'
    | (Throw e, w') => (Throw e, w')
    end.

Definition lift {A} (r : result A) : M A := fun w => (r, w).

(** [try { m } catch (e) { handler e }] *)
Definition try_catch {A} (m : M A) (handler : exn -> M A) : M A :=
  fun w =>
    match m w with
    | (Ok a, w') => (Ok a, w')
    | (Throw e, w') => handler e w'
    end.

Declare Scope js_scope.
Delimit Scope js_scope with js.
Notation "x <- m ;; k" := (bind m (fun x => k))
  (at level 61, m at next level, right associativity) : js_scope.
Local Open Scope js_scope.

Fixpoint mapM {A B} (f : A -> M B) (l : list A) : M (list B) :=
  match l with
  | [] => ret []
  | a :: l' =>
      b <- f a ;;
      bs <- mapM f l' ;;
      ret (b :: bs)
  end.

(** A normalised transfer, as [normalizeTokenTx] builds it.  [time] is
    the time value of the [Date]; [NaN] is an invalid date. *)
Record NormalizedTx : Type := {
  source : string;
  hash : jsval;
  time : number;
  from : jsval;
  to : jsval;
  tokenSymbol : jsval;
  tokenName : jsval;
  contractAddress : jsval;
  value : jsval;
  decimals : number
}.

(** ** The program *)

Definition ETHERSCAN_API : string := "https://api.etherscan.io/v2/api".
Definition COVALENT_BASE : string := "https://api.covalenthq.com/v1".

(** The [options] argument of the fetchers: any value, [undefined] when
    the caller omits it. *)
Definition options_arg : Type := jsval.

(** Binding of a destructured options parameter [{ ... } = {}]: the
    default object replaces an omitted argument, and [null] cannot be
    destructured. *)
Definition bind_options (options : options_arg) : result jsval :=
  match options with
  | JUndefined => Ok (JObj [])
  | JNull => Throw TypeError
  | v => Ok v
  end.

(** One destructured name [k = dflt]: the default applies when the
    property is [undefined]. *)
Definition param (o : jsval) (k : string) (dflt : jsval) : jsval :=
  match get_opt o k with
  | JUndefined => dflt
  | v => v
  end.

(** [`${sort}`] for the destructured name [sort = 'desc'].  Of the names
    the fetchers destructure, [sort] is the one a value other than an
    object can supply: an array has the built-in method of that name. *)
Definition sort_text (h : Host) (o : jsval) : result string :=
  match o with
  | JArr _ => Ok (native_sort_text h)
  | _ => ToString h (param o "sort" (JStr "desc"))
  end.

(** The values a [for ... of] loop visits: the elements of an array, the
    characters of a string; no other value here is iterable. *)
Definition iterate (v : jsval) : result (list jsval) :=
  match v with
  | JArr l => Ok l
  | JStr s => Ok (map (fun c => JStr (String c "")) (list_ascii_of_string s))
  | _ => Throw TypeError
  end.

Section Program.

Variable E : env.

Let h : Host := host E.

(** [Date.now()] *)
Definition Date_now : M Z :=
  fun w => (Ok (clock E (ticks w)),
            {| requests := requests w; ticks := S (ticks w) |}).

(** [fetch(url, init)]: the request is sent, then answered or rejected. *)
Definition fetch (req : request) : M response :=
  fun w => (net E req,
            {| requests := requests w ++ [req]; ticks := ticks w |}).

(** [fetchJSON(url, init)] *)
Definition fetchJSON (u : string) (i : option (list (string * string))) : M jsval :=
  res <- fetch {| url := u; init := i |} ;;
  if negb (ok res) then
    t <- lift (text res) ;;
    throw (Error ("HTTP " ++ NumberToString h (status res) ++ ": " ++ t))
  else
    lift (json res).

(** [normalizeTokenTx(tx, source)].  A property read has no effect and,
    once the first has succeeded, cannot throw, so the operands of [||]
    are read up front. *)
Definition normalizeTokenTx (tx : jsval) (src : string) : M NormalizedTx :=
  tx_hash <- lift (get tx "hash") ;;
  tx_transactionHash <- lift (get tx "transactionHash") ;;
  tx_tx_hash <- lift (get tx "tx_hash") ;;
  timeStamp <- lift (get tx "timeStamp") ;;
  t <- (if truthy timeStamp then
          n <- lift (ToNumber h timeStamp) ;;
          ret (times1000 h n)
        else
          block_signed_at <- lift (get tx "block_signed_at") ;;
          if truthy block_signed_at then
            s <- lift (ToString h block_signed_at) ;;
            ret (Date_parse h s)
          else
            now <- Date_now ;;
            ret (Int now)) ;;
  tx_from <- lift (get tx "from") ;;
  from_address <- lift (get tx "from_address") ;;
  tx_to <- lift (get tx "to") ;;
  to_address <- lift (get tx "to_address") ;;
  tx_tokenSymbol <- lift (get tx "tokenSymbol") ;;
  token_symbol <- lift (get tx "token_symbol") ;;
  tx_tokenName <- lift (get tx "tokenName") ;;
  token_name <- lift (get tx "token_name") ;;
  tx_contractAddress <- lift (get tx "contractAddress") ;;
  contract_address <- lift (get tx "contract_address") ;;
  tx_value <- lift (get tx "value") ;;
  tokenDecimal <- lift (get tx "tokenDecimal") ;;
  token_decimals <- lift (get tx "token_decimals") ;;
  d <- lift (ToNumber h (or_else (or_else tokenDecimal token_decimals) (JNum 18))) ;;
  ret {| source := src;
         hash := or_else (or_else tx_hash tx_transactionHash) tx_tx_hash;
         time := new_Date t;
         from := or_else tx_from from_address;
         to := or_else tx_to to_address;
         tokenSymbol := or_else tx_tokenSymbol token_symbol;
         tokenName := or_else tx_tokenName token_name;
         contractAddress := or_else tx_contractAddress contract_address;
         value := tx_value;
         decimals := d |}.

(** Lines 44-56 of [fetchEtherscanTokenTransfers]: what the adapter makes
    of the parsed response [body]. *)
Definition etherscan_parse (body : jsval) : M (list NormalizedTx) :=
  let result_ := get_opt body "result" in
  match result_ with
  | JArr txs => mapM (fun tx => normalizeTokenTx tx "etherscan") txs
  | _ =>
      status_ <- lift (get body "status") ;;
      message_ <- lift (get body "message") ;;
      if strict_eq_str status_ "1" || strict_eq_str message_ "OK" then
        match or_else result_ (JArr []) with
        | JArr txs => mapM (fun tx => normalizeTokenTx tx "etherscan") txs
        | _ => throw TypeError
        end
      else
        let msg := or_else (get_opt body "message") (JStr "") in
        s_msg <- lift (ToString h msg) ;;
        if no_transactions_test s_msg then ret []
        else
          let detail :=
            match result_ with
            | JStr _ => result_
            | _ =>
                match JSON_stringify h result_ with
                | Some s => JStr s
                | None => JUndefined
                end
            end in
          s_label <- lift (ToString h (or_else msg (JStr "ERROR"))) ;;
          s_detail <- lift (ToString h detail) ;;
          throw (Error ("Etherscan error (V2): " ++ s_label ++ ": " ++ s_detail))
  end.

(** [fetchEtherscanTokenTransfers(address, options)] *)
Definition fetchEtherscanTokenTransfers (address : string) (options : options_arg)
  : M (list NormalizedTx) :=
  o <- lift (bind_options options) ;;
  let page := param o "page" (JNum 1) in
  let offset := param o "offset" (JNum 50) in
  let chainId := param o "chainId" (JNum 1) in
  if negb (configured (etherscanKey E)) then
    throw (Error "Missing REACT_APP_ETHERSCAN_KEY")
  else
    s_chainId <- lift (ToString h chainId) ;;
    s_page <- lift (ToString h page) ;;
    s_offset <- lift (ToString h offset) ;;
    s_sort <- lift (sort_text h o) ;;
    let u := ETHERSCAN_API ++ "?chainid=" ++ s_chainId
             ++ "&module=account&action=tokentx&address=" ++ address
             ++ "&page=" ++ s_page ++ "&offset=" ++ s_offset
             ++ "&sort=" ++ s_sort ++ "&apikey=" ++ key_text (etherscanKey E) in
    body <- fetchJSON u None ;;
    etherscan_parse body.

(** The body of the inner loop: one normalised record per transfer [t]
    of the transaction [item]. *)
Definition covalent_transfer (item t : jsval) : M NormalizedTx :=
  i_tx_hash <- lift (get item "tx_hash") ;;
  i_block_signed_at <- lift (get item "block_signed_at") ;;
  t_from_address <- lift (get t "from_address") ;;
  t_to_address <- lift (get t "to_address") ;;
  t_contract_ticker_symbol <- lift (get t "contract_ticker_symbol") ;;
  t_contract_name <- lift (get t "contract_name") ;;
  t_contract_address <- lift (get t "contract_address") ;;
  t_delta <- lift (get t "delta") ;;
  t_contract_decimals <- lift (get t "contract_decimals") ;;
  normalizeTokenTx
    (JObj [("tx_hash", i_tx_hash);
           ("block_signed_at", i_block_signed_at);
           ("from_address", t_from_address);
           ("to_address", t_to_address);
           ("token_symbol", t_contract_ticker_symbol);
           ("token_name", t_contract_name);
           ("contract_address", t_contract_address);
           ("value", t_delta);
           ("token_decimals", t_contract_decimals)])
    "covalent".

(** The body of the outer loop: the records of one transaction [item]. *)
Definition covalent_item (item : jsval) : M (list NormalizedTx) :=
  i_transfers <- lift (get item "transfers") ;;
  transfers <- lift (iterate (or_else i_transfers (JArr []))) ;;
  mapM (covalent_transfer item) transfers.

(** Lines 65-84 of [fetchCovalentTokenTransfers]: the flattening of the
    parsed response [body]. *)
Definition covalent_flatten (body : jsval) : M (list NormalizedTx) :=
  let items := or_else (get_opt (get_opt body "data") "items") (JArr []) in
  its <- lift (iterate items) ;;
  per_item <- mapM covalent_item its ;;
  ret (List.concat per_item).

(** [fetchCovalentTokenTransfers(address, options)] *)
Definition fetchCovalentTokenTransfers (address : string) (options : options_arg)
  : M (list NormalizedTx) :=
  o <- lift (bind_options options) ;;
  let chainId := param o "chainId" (JNum 1) in
  let pageSize := param o "pageSize" (JNum 50) in
  if negb (configured (covalentKey E)) then
    throw (Error "Missing REACT_APP_COVALENT_KEY")
  else
    s_chainId <- lift (ToString h chainId) ;;
    s_pageSize <- lift (ToString h pageSize) ;;
    let u := COVALENT_BASE ++ "/" ++ s_chainId ++ "/address/" ++ address
             ++ "/transfers_v2/?page-size=" ++ s_pageSize in
    let headers := [("Authorization", "Bearer " ++ key_text (covalentKey E))] in
    body <- fetchJSON u (Some headers) ;;
    covalent_flatten body.

(** [fetchTokenTransfers(address, options)] *)
Definition fetchTokenTransfers (address : string) (options : options_arg)
  : M (list NormalizedTx) :=
  if configured (covalentKey E) then
    try_catch (fetchCovalentTokenTransfers address options)
      (fun e =>
         if configured (etherscanKey E) then
           fetchEtherscanTokenTransfers address options
         else throw e)
  else if configured (etherscanKey E) then
    fetchEtherscanTokenTransfers address options
  else
    ret [].

(** [hasAnyApiKey()] *)
Definition hasAnyApiKey : bool :=
  configured (covalentKey E) || configured (etherscanKey E).

End Program.

(** ** Vocabulary of the statements *)

Definition nullish (v : jsval) : bool :=
  match v with JUndefined | JNull => true | _ => false end.

(** Values whose conversion to a number or a string cannot throw. *)
Definition primitive (v : jsval) : bool :=
  match v with JArr _ | JObj _ => false | _ => true end.

(** The [time] field as [normalizeTokenTx] derives it from [tx]. *)
Definition tx_time (E : env) (tx : jsval) : M number :=
  let timeStamp := get_opt tx "timeStamp" in
  let block_signed_at := get_opt tx "block_signed_at" in
  if truthy timeStamp then
    n <- lift (ToNumber (host E) timeStamp) ;;
    ret (new_Date (times1000 (host E) n))
  else if truthy block_signed_at then
    s <- lift (ToString (host E) block_signed_at) ;;
    ret (new_Date (Date_parse (host E) s))
  else
    now <- Date_now E ;;
    ret (new_Date (Int now)).

(** The [decimals] field as [normalizeTokenTx] derives it from [tx]. *)
Definition tx_decimals (h : Host) (tx : jsval) : result number :=
  ToNumber h (or_else (or_else (get_opt tx "tokenDecimal")
                               (get_opt tx "token_decimals")) (JNum 18)).

(** The record [normalizeTokenTx] returns once time and decimals are known. *)
Definition tx_record (src : string) (tx : jsval) (t d : number) : NormalizedTx :=
  {| source := src;
     hash := or_else (or_else (get_opt tx "hash") (get_opt tx "transactionHash"))
                     (get_opt tx "tx_hash");
     time := t;
     from := or_else (get_opt tx "from") (get_opt tx "from_address");
     to := or_else (get_opt tx "to") (get_opt tx "to_address");
     tokenSymbol := or_else (get_opt tx "tokenSymbol") (get_opt tx "token_symbol");
     tokenName := or_else (get_opt tx "tokenName") (get_opt tx "token_name");
     contractAddress := or_else (get_opt tx "contractAddress")
                                (get_opt tx "contract_address");
     value := get_opt tx "value";
     decimals := d |}.

(** The object literal the Covalent loop passes to [normalizeTokenTx]
    for the transfer [t] of the transaction [item]. *)
Definition covalent_raw (item t : jsval) : jsval :=
  JObj [("tx_hash", get_opt item "tx_hash");
        ("block_signed_at", get_opt item "block_signed_at");
        ("from_address", get_opt t "from_address");
        ("to_address", get_opt t "to_address");
        ("token_symbol", get_opt t "contract_ticker_symbol");
        ("token_name", get_opt t "contract_name");
        ("contract_address", get_opt t "contract_address");
        ("value", get_opt t "delta");
        ("token_decimals", get_opt t "contract_decimals")].

(** A count in one of the two forms the providers use: a run of decimal
    digits (Etherscan's [tokenDecimal] and [timeStamp], zero included)
    of value at most 2^53, which a double holds exactly, or a number that
    is a positive integer (Covalent's [contract_decimals]). *)
Definition numeric_field (v : jsval) : option Z :=
  match v with
  | JStr s =>
      match digits_value s with
      | Some z => if z <=? 2 ^ 53 then Some z else None
      | None => None
      end
  | JNum z => if 0 <? z then Some z else None
  | _ => None
  end.

(** A raw record on which no conversion of [normalizeTokenTx] can throw. *)
Definition plain_tx (tx : jsval) : bool :=
  negb (nullish tx)
  && primitive (get_opt tx "timeStamp")
  && primitive (get_opt tx "block_signed_at")
  && primitive (get_opt tx "tokenDecimal")
  && primitive (get_opt tx "token_decimals").

(** Options that bind, with primitive parameters. *)
Definition plain_options (options : options_arg) : bool :=
  match bind_options options with
  | Ok o => forallb (fun k => primitive (get_opt o k))
                    ["page"; "offset"; "sort"; "chainId"; "pageSize"]
  | Throw _ => false
  end.

(** The network answers every request with a success status and the
    parsed content [body]. *)
Definition answers (E : env) (body : jsval) : Prop :=
  forall req, exists st tx,
      net E req = Ok {| ok := true; status := st; text := tx; json := Ok body |}.

(** The world after one more request. *)
Definition sent (req : request) (w : world) : world :=
  {| requests := requests w ++ [req]; ticks := ticks w |}.

(** The text of the [message] field when it is a string, absent or [null]. *)
Definition message_text (v : jsval) : option string :=
  match v with
  | JStr m => Some m
  | JUndefined | JNull => Some ""
  | _ => None
  end.

(** The diagnostic tail of the Etherscan error: the [result] itself when
    it is a string, its JSON text otherwise. *)
Definition detail_text (h : Host) (result_ : jsval) : string :=
  match result_ with
  | JStr r => r
  | _ =>
      match JSON_stringify h result_ with
      | Some j => j
      | None => "undefined"
      end
  end.

(** The transfers of a transaction item, and the items of a response,
    when they are arrays. *)
Definition transfers_of (item : jsval) : list jsval :=
  match or_else (get_opt item "transfers") (JArr []) with
  | JArr ts => ts
  | _ => []
  end.

Definition items_of (body : jsval) : list jsval :=
  match or_else (get_opt (get_opt body "data") "items") (JArr []) with
  | JArr its => its
  | _ => []
  end.

(** A value whose conversion to a string or to a number returns: every
    primitive, and an object or an array unless its conversion to a
    primitive throws. *)
Definition converts (h : Host) (v : jsval) : bool :=
  match ToString h v with
  | Ok _ => true
  | Throw _ => false
  end.

(** A transfer event the Covalent loop makes a record of: the transfer
    is not [null] or [undefined], and the block time of its transaction
    and its own decimal count convert. *)
Definition accepts_event (h : Host) (item t : jsval) : bool :=
  negb (nullish t)
  && converts h (get_opt item "block_signed_at")
  && converts h (get_opt t "contract_decimals").

(** A transaction item the loop gets through: not [null] or [undefined],
    its [transfers] falsy or iterable, and every transfer accepted. *)
Definition accepts_item (h : Host) (item : jsval) : bool :=
  negb (nullish item)
  && match iterate (or_else (get_opt item "transfers") (JArr [])) with
     | Ok ts => forallb (accepts_event h item) ts
     | Throw _ => false
     end.

(** A response the flattening gets through: [data.items] falsy or
    iterable, and every item accepted. *)
Definition accepts_body (h : Host) (body : jsval) : bool :=
  match iterate (or_else (get_opt (get_opt body "data") "items") (JArr [])) with
  | Ok its => forallb (accepts_item h) its
  | Throw _ => false
  end.

(** The Covalent response schema [data.items[].transfers[]]: the items
    are missing or form an array, no item is [null] or [undefined], the
    transfers of an item are missing or form an array, and every transfer
    is accepted. *)
Definition schema_item (h : Host) (item : jsval) : bool :=
  negb (nullish item)
  && isArray (or_else (get_opt item "transfers") (JArr []))
  && forallb (accepts_event h item) (transfers_of item).

Definition schema_body (h : Host) (body : jsval) : bool :=
  isArray (or_else (get_opt (get_opt body "data") "items") (JArr []))
  && forallb (schema_item h) (items_of body).

(** The transfer events of a response, each with its transaction, in
    document order. *)
Definition events_of (body : jsval) : list (jsval * jsval) :=
  flat_map (fun item => map (pair item) (transfers_of item)) (items_of body).

(** What a record of the Covalent adapter takes from its transaction
    [item] and its transfer event [t]. *)
Definition inherits (h : Host) (ev : jsval * jsval) (r : NormalizedTx) : Prop :=
  let (item, t) := ev in
  source r = "covalent" /\
  hash r = get_opt item "tx_hash" /\
  from r = get_opt t "from_address" /\
  to r = get_opt t "to_address" /\
  tokenSymbol r = get_opt t "contract_ticker_symbol" /\
  tokenName r = get_opt t "contract_name" /\
  contractAddress r = get_opt t "contract_address" /\
  value r = get_opt t "delta" /\
  (truthy (get_opt item "block_signed_at") = true ->
   forall s, ToString h (get_opt item "block_signed_at") = Ok s ->
             time r = new_Date (Date_parse h s)).

(** A computation that sends nothing. *)
Definition quiet {A} (m : M A) : Prop :=
  forall w, requests (snd (m w)) = requests w.

(** The orchestrator as section 4.4 of the specification words it: the
    Secondary Provider (Etherscan) first, the Primary Provider (Covalent)
    as the fallback.  Kept for comparison with [fetchTokenTransfers]. *)
Definition fetchTokenTransfers_as_specified (E : env) (address : string)
           (options : options_arg) : M (list NormalizedTx) :=
  if configured (etherscanKey E) then
    try_catch (fetchEtherscanTokenTransfers E address options)
      (fun e =>
         if configured (covalentKey E) then
           fetchCovalentTokenTransfers E address options
         else throw e)
  else if configured (covalentKey E) then
    fetchCovalentTokenTransfers E address options
  else
    ret [].

(** ** A fixed environment for the examples *)

(** A stand-in host.  It knows one date, the text of an empty array and
    of an object (one whose [toString] is a property of its own, hence
    not a function, cannot be converted), the JSON text of [null] and the
    number [1.5]; its arithmetic is the exact one, which is what a double
    gives on the small values of the examples.  The examples below ask it
    nothing else. *)
Definition sample_host : Host :=
  {| StringToNumber_rest := fun s => if string_eqb s "1.5" then Frac 3 2 else NaN;
     NumberToString_rest := fun _ => "";
     FractionToString := fun _ _ => "";
     frac_times1000 := fun num den =>
       let g := Z.gcd (num * 1000) (Z.pos den) in
       if g =? Z.pos den then Int (num * 1000 / g)
       else Frac (num * 1000 / g) (Z.to_pos (Z.pos den / g));
     frac_plus := fun num den k => Frac (num + k * Z.pos den) den;
     native_sort_text := "function sort() { [native code] }";
     ToPrimitive := fun v => match v with
                             | JObj props =>
                                 match lookup "toString" props with
                                 | JUndefined => Some "[object Object]"
                                 | _ => None
                                 end
                             | JArr [] => Some ""
                             | _ => None
                             end;
     Date_parse := fun s => if string_eqb s "2023-11-14T22:13:20Z"
                            then Int 1700000000000 else NaN;
     JSON_stringify := fun v => match v with
                                | JNull => Some "null"
                                | _ => None
                                end |}.

Definition http_ok (body : jsval) : result response :=
  Ok {| ok := true; status := 200; text := Ok ""; json := Ok body |}.

Definition http_fail (code : Z) (msg : string) : result response :=
  Ok {| ok := false; status := code; text := Ok msg; json := Throw (Rejected "body") |}.

(** The clock of the examples advances by one millisecond per reading. *)
Definition sample_clock (k : nat) : Z := 1700000000000 + Z.of_nat k.

Definition sample_env (ekey ckey : option string) (n : request -> result response)
  : env :=
  {| etherscanKey := ekey; covalentKey := ckey; net := n;
     clock := sample_clock; host := sample_host |}.

Definition w0 : world := {| requests := []; ticks := 0 |}.

(** The options the application passes. *)
Definition app_options : options_arg := JObj [("offset", JNum 50)].

(** A network that rejects every request. *)
Definition offline : request -> result response :=
  fun _ => Throw (Rejected "offline").

(** The largest time value a [Date] holds. *)
Definition MAX_TIME : Z := 8640000000000000.

Definition offline_env : env := sample_env None None offline.

(** The Etherscan record of the specification's scenario. *)
Definition etherscan_raw_sample : jsval :=
  JObj [("hash", JStr "0xAA"); ("timeStamp", JStr "1700000000");
        ("from", JStr "0x1"); ("to", JStr "0x2"); ("tokenSymbol", JStr "USDT");
        ("value", JStr "1000000"); ("tokenDecimal", JStr "6")].

(** The same record without its time stamp. *)
Definition unstamped_raw_sample : jsval :=
  JObj [("hash", JStr "0xAA"); ("from", JStr "0x1"); ("to", JStr "0x2");
        ("tokenSymbol", JStr "USDT"); ("value", JStr "1000000");
        ("tokenDecimal", JStr "6")].

Definition late_world : world := {| requests := []; ticks := 7 |}.

(** The world after one reading of the clock. *)
Definition second_world : world := {| requests := []; ticks := 1 |}.

(** The Etherscan response of the specification's scenario. *)
Definition etherscan_body_sample : jsval :=
  JObj [("status", JStr "1"); ("result", JArr [etherscan_raw_sample])].

(** A Covalent response: one transaction carrying two transfer events. *)
Definition covalent_body_sample : jsval :=
  JObj [("data", JObj [("items", JArr [
    JObj [("tx_hash", JStr "0xT1");
          ("block_signed_at", JStr "2023-11-14T22:13:20Z");
          ("transfers", JArr [
             JObj [("from_address", JStr "0x1"); ("to_address", JStr "0x2");
                   ("contract_ticker_symbol", JStr "USDT");
                   ("delta", JStr "1000000"); ("contract_decimals", JNum 6)];
             JObj [("from_address", JStr "0x2"); ("to_address", JStr "0x3");
                   ("contract_ticker_symbol", JStr "DAI");
                   ("delta", JStr "5000000000000000000");
                   ("contract_decimals", JNum 18)]])]])])].

(** A network on which both providers answer: Covalent requests (the
    ones carrying headers) get [covalent_body_sample], Etherscan requests
    [etherscan_body_sample]. *)
Definition both_up : request -> result response :=
  fun req =>
    match init req with
    | Some _ => http_ok covalent_body_sample
    | None => http_ok etherscan_body_sample
    end.

(** The request the Covalent adapter sends to [u]. *)
Definition covalent_request (E : env) (u : string) : request :=
  {| url := u;
     init := Some [("Authorization", "Bearer " ++ key_text (covalentKey E))] |}.

(** A Covalent response whose item list holds a [null]. *)
Definition covalent_body_null_item : jsval :=
  JObj [("data", JObj [("items", JArr [JNull])])].

(** One transaction carrying two transfer events and no block time. *)
Definition covalent_body_unstamped : jsval :=
  JObj [("data", JObj [("items", JArr [
    JObj [("tx_hash", JStr "0xT1");
          ("transfers", JArr [
             JObj [("from_address", JStr "0x1"); ("to_address", JStr "0x2");
                   ("delta", JStr "1000000"); ("contract_decimals", JNum 6)];
             JObj [("from_address", JStr "0x2"); ("to_address", JStr "0x3");
                   ("delta", JStr "2000000"); ("contract_decimals", JNum 6)]])]])])].

(** One transaction whose transfer list holds a [null]. *)
Definition covalent_body_null_transfer : jsval :=
  JObj [("data", JObj [("items", JArr [
    JObj [("tx_hash", JStr "0xT1");
          ("block_signed_at", JStr "2023-11-14T22:13:20Z");
          ("transfers", JArr [JNull])]])])].

(** An object that cannot be converted to a primitive: its [toString]
    is not a function. *)
Definition unconvertible : jsval := JObj [("toString", JNum 1)].

(** A response that is all arrays of objects, with a block time that
    does not convert. *)
Definition covalent_body_odd_time : jsval :=
  JObj [("data", JObj [("items", JArr [
    JObj [("tx_hash", JStr "0xT1");
          ("block_signed_at", unconvertible);
          ("transfers", JArr [JObj [("delta", JStr "1")]])]])])].

(** An environment whose clock stands still. *)
Definition frozen_env : env :=
  {| etherscanKey := None; covalentKey := None; net := offline;
     clock := fun _ => 1700000000000; host := sample_host |}.

(** Only the Covalent credential is set, and the network answers [body]. *)
Definition covalent_env (body : jsval) : env :=
  sample_env None (Some "CK") (fun _ => http_ok body).

(** Only the Etherscan credential is set, and the network answers [body]. *)
Definition etherscan_env (body : jsval) : env :=
  sample_env (Some "EK") None (fun _ => http_ok body).

(** Etherscan's answer for an address without transfers. *)
Definition etherscan_body_empty : jsval :=
  JObj [("message", JStr "No transactions found")].

(** An answer whose message speaks of no transactions in other words. *)
Definition etherscan_body_other_words : jsval :=
  JObj [("status", JStr "0"); ("message", JStr "No transactions yet");
        ("result", JNull)].

(** A network on which both providers are failing: Covalent requests
    (the ones carrying headers) get a 401, Etherscan requests a 500. *)
Definition both_down : request -> result response :=
  fun req =>
    match init req with
    | Some _ => http_fail 401 "bad key"
    | None => http_fail 500 "down"
    end.

(** ** The presentation layer (App.js)

    The component keeps a watch list, loads the transfers of every entry
    through [fetchTokenTransfers], and shows one table row per transfer.
    Text is handled as the list of its characters. *)

(** [s.slice(start, end)] on the characters of [s]: an index counts from
    the end when negative and is clamped to the text. *)
Definition relative_index (len i : Z) : Z :=
  if i <? 0 then Z.max (len + i) 0 else Z.min i len.

Definition slice_chars (l : list ascii) (start end_ : Z) : list ascii :=
  let len := Z.of_nat (List.length l) in
  let lo := relative_index len start in
  let hi := relative_index len end_ in
  firstn (Z.to_nat (hi - lo)) (skipn (Z.to_nat lo) l).

Definition zero_char : ascii := "0"%char.
Definition dash_char : ascii := "-"%char.
Definition dot_char : ascii := "."%char.

(** [s.padStart(maxLength, '0')].  The target length is clamped to
    0 .. 2^53-1; a text already that long is returned as it is; a target
    beyond [limit], the longest string the engine builds, throws ([None]). *)
Definition padStart_zeros (limit : Z) (l : list ascii) (maxLength : Z)
  : option (list ascii) :=
  let n := Z.min (Z.max maxLength 0) (2 ^ 53 - 1) in
  let len := Z.of_nat (List.length l) in
  if n <=? len then Some l
  else if limit <? n then None
  else Some (repeat zero_char (Z.to_nat (n - len)) ++ l)%list.

(** [s.replace(/0+$/, '')] *)
Fixpoint strip_trailing_zeros (l : list ascii) : list ascii :=
  match l with
  | [] => []
  | c :: l' =>
      match strip_trailing_zeros l' with
      | [] => if Ascii.eqb c zero_char then [] else [c]
      | r => c :: r
      end
  end.

(** [s.replace('-', '')]: the first dash goes. *)
Fixpoint remove_first_dash (l : list ascii) : list ascii :=
  match l with
  | [] => []
  | c :: l' => if Ascii.eqb c dash_char then l' else c :: remove_first_dash l'
  end.

(** [s.startsWith('-')] *)
Definition starts_with_dash (l : list ascii) : bool :=
  match l with
  | c :: _ => Ascii.eqb c dash_char
  | [] => false
  end.

(** The count [formatAmount] works with: [Number(decimals || 18)] for
    the [decimals] of a normalised record.  Zero and [NaN] are falsy. *)
Definition effective_decimals (decimals : number) : number :=
  match decimals with
  | NaN => Int 18
  | Int z => if z =? 0 then Int 18 else Int z
  | Frac num den => if num =? 0 then Int 18 else Frac num den
  | Inf negative => Inf negative
  end.

(** [-x] *)
Definition negate (x : number) : number :=
  match x with
  | NaN => NaN
  | Int z => Int (- z)
  | Frac num den => Frac (- num) den
  | Inf negative => Inf (negb negative)
  end.

(** [x + k] for an integer [k].  The sum of two integers is taken
    exactly: it is only ever used as a length or an index of a string,
    and where the double sum would round, both it and the exact sum lie
    beyond every such length. *)
Definition plus_int (h : Host) (x : number) (k : Z) : number :=
  match x with
  | NaN => NaN
  | Int z => Int (z + k)
  | Frac num den => frac_plus h num den k
  | Inf negative => Inf negative
  end.

(** The integer a length or an index argument stands for: the fraction
    is dropped and [NaN] counts as zero.  An infinity stands as 2^53 of
    its sign, beyond the length of every string. *)
Definition to_integer (x : number) : Z :=
  match x with
  | NaN => 0
  | Int z => z
  | Frac num den => Z.quot num (Z.pos den)
  | Inf negative => if negative then - 2 ^ 53 else 2 ^ 53
  end.

(** The length [formatAmount] asks [padStart] for, as [padStart] takes
    it: [d + 1] clamped to 0 .. 2^53-1. *)
Definition pad_target (h : Host) (decimals : number) : Z :=
  Z.min (Z.max (to_integer (plus_int h (effective_decimals decimals) 1)) 0)
        (2 ^ 53 - 1).

(** [formatAmount(raw, decimals)].  [limit] is the longest string the
    engine builds.  Whatever the [try] block throws is caught and answered
    with [String(raw)], which throws again when it was the one to throw.
    [pad.length - d] is [-d + pad.length]. *)
Definition formatAmount (limit : Z) (h : Host) (raw : jsval) (decimals : number)
  : result string :=
  let d := effective_decimals decimals in
  if negb (truthy raw) then Ok "0"
  else
    match ToString h raw with
    | Throw e => Throw e
    | Ok text =>
        let neg := starts_with_dash (list_ascii_of_string text) in
        let s := remove_first_dash (list_ascii_of_string text) in
        match padStart_zeros limit s (to_integer (plus_int h d 1)) with
        | None => Ok text
        | Some pad =>
            let len := Z.of_nat (List.length pad) in
            let int := slice_chars pad 0 (to_integer (plus_int h (negate d) len)) in
            let frac := strip_trailing_zeros
                          (slice_chars pad (to_integer (negate d)) len) in
            let val := match frac with
                       | [] => int
                       | _ => (int ++ dot_char :: frac)%list
                       end in
            Ok (string_of_list_ascii (if neg then dash_char :: val else val))
        end
    end.





(** [s.toLowerCase()]: the letters A-Z, and the capital letters of the
    upper half of the 8-bit range, move to their small forms. *)
Definition lower_char (c : ascii) : ascii :=
  let n := N_of_ascii c in
  if ((65 <=? n) && (n <=? 90)
      || (192 <=? n) && (n <=? 222) && negb (n =? 215))%N
  then ascii_of_N (n + 32) else c.

Definition toLowerCase (s : string) : string :=
  string_of_list_ascii (map lower_char (list_ascii_of_string s)).

(** [s.trim()]: white space goes from both ends. *)
Definition is_space (c : ascii) : bool :=
  let n := N_of_ascii c in
  ((9 <=? n) && (n <=? 13) || (n =? 32) || (n =? 160))%N.

Fixpoint trim_start (l : list ascii) : list ascii :=
  match l with
  | [] => []
  | c :: l' => if is_space c then trim_start l' else l
  end.

Definition trim (s : string) : string :=
  string_of_list_ascii
    (rev (trim_start (rev (trim_start (list_ascii_of_string s))))).

(** A watch-list entry, as [addAddress] builds it. *)
Record entry : Type := {
  address : string;
  label : string
}.

(** A table row: [{ owner: item, ...tx, direction }]. *)
Record Row : Type := {
  owner : entry;
  transfer : NormalizedTx;
  direction : string
}.

(** [(v || '').toLowerCase()]: only a string has the method. *)
Definition lower_of (v : jsval) : result string :=
  match or_else v (JStr "") with
  | JStr s => Ok (toLowerCase s)
  | _ => Throw TypeError
  end.

(** The body of the inner loop of [loadTransfers]: the row of the
    transfer [tx] found for the entry [item]. *)
Definition row_of (item : entry) (tx : NormalizedTx) : result Row :=
  match lower_of (from tx) with
  | Throw e => Throw e
  | Ok fromLc =>
      match lower_of (to tx) with
      | Throw e => Throw e
      | Ok toLc =>
          let addrLc := toLowerCase (address item) in
          Ok {| owner := item;
                transfer := tx;
                direction := if string_eqb fromLc addrLc then "OUT"
                             else if string_eqb toLc addrLc then "IN"
                             else "OTHER" |}
      end
  end.

Fixpoint rows_of (item : entry) (txs : list NormalizedTx) : result (list Row) :=
  match txs with
  | [] => Ok []
  | tx :: txs' =>
      match row_of item tx with
      | Throw e => Throw e
      | Ok r =>
          match rows_of item txs' with
          | Throw e => Throw e
          | Ok rs => Ok (r :: rs)
          end
      end
  end.

(** The outer loop of [loadTransfers]: entry after entry, in order. *)
Fixpoint collect (E : env) (watchlist : list entry) : M (list Row) :=
  match watchlist with
  | [] => ret []
  | item :: rest =>
      txs <- fetchTokenTransfers E (address item) (JObj [("offset", JNum 50)]) ;;
      rs <- lift (rows_of item txs) ;;
      more <- collect E rest ;;
      ret (rs ++ more)%list
  end.

(** [out.sort((a, b) => b.time - a.time)].  The sort is stable: rows come
    latest first, and rows of equal time keep their order.  When a row has
    an invalid date the comparator yields NaN and the order is whatever
    the engine makes of it ([unspecified]). *)
Definition dated (r : Row) : bool :=
  match time (transfer r) with
  | Int _ => true
  | _ => false
  end.

Definition time_value (r : Row) : Z :=
  match time (transfer r) with
  | Int z => z
  | _ => 0
  end.

Fixpoint insert_by_time (r : Row) (l : list Row) : list Row :=
  match l with
  | [] => [r]
  | x :: l' =>
      if time_value r <? time_value x then x :: insert_by_time r l'
      else r :: x :: l'
  end.

Fixpoint sort_by_time (l : list Row) : list Row :=
  match l with
  | [] => []
  | r :: l' => insert_by_time r (sort_by_time l')
  end.

Definition sort_rows (unspecified : list Row -> list Row) (l : list Row)
  : list Row :=
  if forallb dated l then sort_by_time l else unspecified l.

(** [e.message || String(e)].  [describe] is the text of an exception the
    program did not construct itself. *)
Definition error_text (describe : exn -> string) (e : exn) : string :=
  match e with
  | Error m => if string_eqb m "" then "Error" else m
  | _ => describe e
  end.

(** What [loadTransfers] leaves on the screen. *)
Record ui : Type := {
  rows : list Row;
  loading : bool;
  error : string
}.

(** [loadTransfers()]: the state once the load has settled. *)
Definition loadTransfers (E : env) (describe : exn -> string)
           (unspecified : list Row -> list Row) (watchlist : list entry)
  : world -> ui * world :=
  fun w =>
    match collect E watchlist w with
    | (Ok out, w') =>
        ({| rows := sort_rows unspecified out; loading := false; error := "" |}, w')
    | (Throw e, w') =>
        ({| rows := []; loading := false; error := error_text describe e |}, w')
    end.


Definition counterparty (r : Row) : jsval :=
  if string_eqb (direction r) "OUT" then to (transfer r)
  else if string_eqb (direction r) "IN" then from (transfer r)
  else JStr "".

(** The watch list with its input fields and its copy in local storage. *)
Record watch : Type := {
  addressInput : string;
  labelInput : string;
  watchlist : list entry;
  stored : option string
}.

(** [JSON.stringify(list)] *)
Definition entry_json (e : entry) : jsval :=
  JObj [("address", JStr (address e)); ("label", JStr (label e))].

Definition stringify_watchlist (h : Host) (l : list entry) : string :=
  match JSON_stringify h (JArr (map entry_json l)) with
  | Some t => t
  | None => "undefined"
  end.

(** [addAddress()].  [accepts] tells whether local storage takes a text;
    when it does not, [setItem] throws and the handler is cut short
    ([None]). *)
Definition addAddress (h : Host) (accepts : string -> bool) (st : watch)
  : option watch :=
  let addr := trim (addressInput st) in
  if string_eqb addr "" then Some st
  else
    let lbl := trim (labelInput st) in
    let next := (watchlist st ++ [{| address := addr; label := lbl |}])%list in
    let t := stringify_watchlist h next in
    if accepts t then
      Some {| addressInput := ""; labelInput := "";
              watchlist := next; stored := Some t |}
    else None.

(** [watchlist.filter((_, i) => i !== idx)] *)
Fixpoint filter_index {A} (i idx : nat) (l : list A) : list A :=
  match l with
  | [] => []
  | a :: l' =>
      if Nat.eqb i idx then filter_index (S i) idx l'
      else a :: filter_index (S i) idx l'
  end.

(** [removeItem(idx)] *)
Definition removeItem (h : Host) (accepts : string -> bool) (idx : nat)
           (st : watch) : option watch :=
  let next := filter_index 0 idx (watchlist st) in
  let t := stringify_watchlist h next in
  if accepts t then
    Some {| addressInput := addressInput st; labelInput := labelInput st;
            watchlist := next; stored := Some t |}
  else None.


(** An entry as [addAddress] leaves it: an address that is not empty, and
    no white space around address or label. *)
Definition clean_entry (e : entry) : Prop :=
  address e <> "" /\ trim (address e) = address e /\ trim (label e) = label e.

(** Sample values for the presentation layer: a string limit, an entry,
    the request its fetch sends with the key "EK", a network that answers
    that request alone, and a watch list being typed into. *)
Definition sample_limit : Z := 2 ^ 29 - 24.

Definition sample_entry : entry := {| address := "0x2"; label := "mine" |}.

Definition etherscan_url_sample : string :=
  "https://api.etherscan.io/v2/api?chainid=1&module=account&action=tokentx&address=0x2&page=1&offset=50&sort=desc&apikey=EK".

Definition one_address_up : request -> result response :=
  fun req =>
    if string_eqb (url req) etherscan_url_sample
    then http_ok etherscan_body_sample
    else http_fail 500 "down".

Definition sample_watch : watch :=
  {| addressInput := "  0xabc "; labelInput := " cold wallet";
     watchlist := []; stored := None |}.

(** ** Basic facts about the embedding *)

(** One step of a computation whose next action is the pure conversion
    that the equation [H] evaluates. *)
Ltac step H := unfold bind at 1; unfold lift at 1; rewrite H.

Lemma get_nonnullish (v : jsval) (k : string) :
  nullish v = false -> get v k = Ok (get_opt v k).
Proof. destruct v; simpl; intros H; try discriminate; reflexivity. Qed.

Lemma ToNumber_primitive (h : Host) (v : jsval) :
  primitive v = true -> exists n, ToNumber h v = Ok n.
Proof. destruct v; simpl; intros H; try discriminate; eauto. Qed.

Lemma ToString_primitive (h : Host) (v : jsval) :
  primitive v = true -> exists s, ToString h v = Ok s.
Proof. destruct v; simpl; intros H; try discriminate; eauto. Qed.

Lemma ToNumber_throws (h : Host) (v : jsval) (e : exn) :
  ToNumber h v = Throw e -> e = TypeError.
Proof.
  destruct v; simpl; try discriminate;
    destruct (ToPrimitive h _); congruence.
Qed.

Lemma ToString_throws (h : Host) (v : jsval) (e : exn) :
  ToString h v = Throw e -> e = TypeError.
Proof.
  destruct v; simpl; try discriminate;
    destruct (ToPrimitive h _); congruence.
Qed.

(** A property read on [null] or [undefined] ends the normalisation at
    its first line. *)
Lemma normalizeTokenTx_nullish (E : env) (tx : jsval) (src : string) (w : world) :
  nullish tx = true -> normalizeTokenTx E tx src w = (Throw TypeError, w).
Proof. destruct tx; simpl; intros H; try discriminate; reflexivity. Qed.

(** On any other value the normalisation is the time derivation followed
    by the conversion of the decimal count. *)
Lemma normalizeTokenTx_run (E : env) (tx : jsval) (src : string) (w : world) :
  nullish tx = false ->
  normalizeTokenTx E tx src w =
  match tx_time E tx w with
  | (Ok t, w1) =>
      match tx_decimals (host E) tx with
      | Ok d => (Ok (tx_record src tx t d), w1)
      | Throw e => (Throw e, w1)
      end
  | (Throw e, w1) => (Throw e, w1)
  end.
Proof.
  intros Hn.
  unfold normalizeTokenTx, tx_time, tx_decimals, tx_record, bind, lift, ret.
  rewrite !(get_nonnullish tx _ Hn).
  destruct (truthy (get_opt tx "timeStamp")).
  - destruct (ToNumber (host E) (get_opt tx "timeStamp")); [|reflexivity].
    destruct (ToNumber (host E) _); reflexivity.
  - destruct (truthy (get_opt tx "block_signed_at")).
    + destruct (ToString (host E) (get_opt tx "block_signed_at")); [|reflexivity].
      destruct (ToNumber (host E) _); reflexivity.
    + unfold Date_now.
      destruct (ToNumber (host E) _); reflexivity.
Qed.

Lemma normalizeTokenTx_ok_inv (E : env) (tx : jsval) (src : string)
      (w w' : world) (r : NormalizedTx) :
  normalizeTokenTx E tx src w = (Ok r, w') ->
  nullish tx = false /\
  exists t d, tx_time E tx w = (Ok t, w') /\
              tx_decimals (host E) tx = Ok d /\
              r = tx_record src tx t d.
Proof.
  intros H.
  destruct (nullish tx) eqn:Hn.
  - rewrite normalizeTokenTx_nullish in H by assumption. discriminate.
  - split; [reflexivity|].
    rewrite normalizeTokenTx_run in H by assumption.
    destruct (tx_time E tx w) as [[t|e] w1]; [|discriminate].
    destruct (tx_decimals (host E) tx) as [d|e]; [|discriminate].
    injection H as <- <-. eauto.
Qed.

Lemma tx_time_primitive (E : env) (tx : jsval) (w : world) :
  primitive (get_opt tx "timeStamp") = true ->
  primitive (get_opt tx "block_signed_at") = true ->
  exists t w', tx_time E tx w = (Ok t, w').
Proof.
  intros Hts Hbsa. unfold tx_time, bind, lift, ret.
  destruct (truthy (get_opt tx "timeStamp")).
  - destruct (ToNumber_primitive (host E) _ Hts) as [n ->]. eauto.
  - destruct (truthy (get_opt tx "block_signed_at")).
    + destruct (ToString_primitive (host E) _ Hbsa) as [s ->]. eauto.
    + unfold Date_now. eauto.
Qed.

Lemma tx_decimals_primitive (h : Host) (tx : jsval) :
  primitive (get_opt tx "tokenDecimal") = true ->
  primitive (get_opt tx "token_decimals") = true ->
  exists d, tx_decimals h tx = Ok d.
Proof.
  intros H1 H2. unfold tx_decimals. apply ToNumber_primitive.
  unfold or_else.
  destruct (truthy (get_opt tx "tokenDecimal")) eqn:T1.
  - rewrite T1. exact H1.
  - destruct (truthy (get_opt tx "token_decimals")); [exact H2|reflexivity].
Qed.

(** The Covalent loop body is the normalisation of [covalent_raw]. *)
Lemma covalent_transfer_run (E : env) (item t : jsval) (w : world) :
  nullish item = false -> nullish t = false ->
  covalent_transfer E item t w = normalizeTokenTx E (covalent_raw item t) "covalent" w.
Proof.
  intros Hi Ht. unfold covalent_transfer, bind, lift.
  rewrite !(get_nonnullish item _ Hi), !(get_nonnullish t _ Ht).
  reflexivity.
Qed.

Lemma covalent_transfer_nullish (E : env) (item t : jsval) (w : world) :
  nullish item = true \/ nullish t = true ->
  covalent_transfer E item t w = (Throw TypeError, w).
Proof.
  intros [H|H].
  - destruct item; try discriminate; reflexivity.
  - destruct t; try discriminate; destruct item; reflexivity.
Qed.

(** ** The raw value (C6) *)

(** C6. The [value] field of the normalised record is the raw record's
    [value] property as it stands: whenever [normalizeTokenTx] returns a
    record its [value] is [tx.value], it does return one for every raw
    record that is not [null] and whose time and decimal fields are
    primitive, and on the Covalent path the [value] is the transfer's
    [delta].  No conversion is applied, so a string stays the same string. *)
Theorem normalizeTokenTx_value_unchanged (E : env) (tx : jsval) (src : string)
        (w : world) :
  (forall r w', normalizeTokenTx E tx src w = (Ok r, w') ->
                value r = get_opt tx "value") /\
  (nullish tx = false ->
   primitive (get_opt tx "timeStamp") = true ->
   primitive (get_opt tx "block_signed_at") = true ->
   primitive (get_opt tx "tokenDecimal") = true ->
   primitive (get_opt tx "token_decimals") = true ->
   exists r w', normalizeTokenTx E tx src w = (Ok r, w') /\
                value r = get_opt tx "value") /\
  (forall item t r w', covalent_transfer E item t w = (Ok r, w') ->
                       value r = get_opt t "delta").
Proof.
  split; [|split].
  - intros r w' H.
    apply normalizeTokenTx_ok_inv in H as (_ & t & d & _ & _ & ->). reflexivity.
  - intros Hn Hts Hbsa Htd Htds.
    rewrite normalizeTokenTx_run by assumption.
    destruct (tx_time_primitive E tx w Hts Hbsa) as (t & w' & ->).
    destruct (tx_decimals_primitive (host E) tx Htd Htds) as (d & ->).
    eauto.
  - intros item t r w' H.
    destruct (nullish item) eqn:Hi.
    { rewrite covalent_transfer_nullish in H by auto. discriminate. }
    destruct (nullish t) eqn:Ht.
    { rewrite covalent_transfer_nullish in H by auto. discriminate. }
    rewrite covalent_transfer_run in H by assumption.
    apply normalizeTokenTx_ok_inv in H as (_ & tm & d & _ & _ & ->). reflexivity.
Qed.

(** The 30-digit amount of the specification's example is kept verbatim. *)
Lemma normalizeTokenTx_value_unchanged_witness :
  exists r w',
    normalizeTokenTx offline_env
      (JObj [("value", JStr "123456789012345678901234567890")]) "etherscan" w0
    = (Ok r, w') /\
    value r = JStr "123456789012345678901234567890".
Proof.
  apply (proj1 (proj2 (normalizeTokenTx_value_unchanged
           offline_env
           (JObj [("value", JStr "123456789012345678901234567890")])
           "etherscan" w0))); reflexivity.
Defined.

(** ** The decimal count (C7) *)

Lemma digits_value_nonneg (s : string) (z : Z) :
  digits_value s = Some z -> 0 <= z.
Proof.
  unfold digits_value. destruct (NilZero.uint_of_string s) as [d|]; [|discriminate].
  intros [= <-]. unfold Z.of_uint. apply N2Z.is_nonneg.
Qed.

Lemma digits_value_truthy (s : string) (z : Z) :
  digits_value s = Some z -> truthy (JStr s) = true.
Proof. destruct s; [discriminate|reflexivity]. Qed.

Lemma numeric_field_spec (h : Host) (v : jsval) (z : Z) :
  numeric_field v = Some z ->
  truthy v = true /\ ToNumber h v = Ok (Int z) /\ 0 <= z.
Proof.
  destruct v as [| |b|n|s|l|p|fn fd]; unfold numeric_field; try discriminate.
  - destruct (0 <? n) eqn:Hpos; [|discriminate]. intros [= <-].
    apply Z.ltb_lt in Hpos. repeat split; [|lia].
    apply negb_true_iff, Z.eqb_neq. lia.
  - destruct (digits_value s) as [z'|] eqn:Hd; [|discriminate].
    destruct (z' <=? 2 ^ 53) eqn:Hle; [|discriminate]. intros [= <-].
    repeat split.
    + exact (digits_value_truthy s z' Hd).
    + unfold ToNumber, StringToNumber. rewrite Hd, Hle. reflexivity.
    + exact (digits_value_nonneg s z' Hd).
Qed.

Lemma nullish_falsy (v : jsval) : nullish v = true -> truthy v = false.
Proof. destruct v; simpl; intros H; try discriminate; reflexivity. Qed.

Lemma decimals_of_normalized (E : env) (tx : jsval) (src : string)
      (w : world) (d : number) :
  nullish tx = false ->
  primitive (get_opt tx "timeStamp") = true ->
  primitive (get_opt tx "block_signed_at") = true ->
  tx_decimals (host E) tx = Ok d ->
  exists r w', normalizeTokenTx E tx src w = (Ok r, w') /\ decimals r = d.
Proof.
  intros Hn Hts Hbsa Hd.
  rewrite normalizeTokenTx_run by assumption.
  destruct (tx_time_primitive E tx w Hts Hbsa) as (t & w' & ->).
  rewrite Hd. eauto.
Qed.

(** C7, as the code has it.  For a raw record that is not [null] and
    whose time fields are primitive, the normalisation returns a record
    whose [decimals] is 18 when both decimal fields are absent or [null],
    and is the supplied count, a non-negative integer, when
    [tokenDecimal] (or, when that is absent or [null], [token_decimals])
    is a run of decimal digits, ["0"] included, of value at most 2^53, or
    a number that is a positive integer. *)
Theorem normalizeTokenTx_decimals (E : env) (tx : jsval) (src : string) (w : world) :
  nullish tx = false ->
  primitive (get_opt tx "timeStamp") = true ->
  primitive (get_opt tx "block_signed_at") = true ->
  (nullish (get_opt tx "tokenDecimal") = true ->
   nullish (get_opt tx "token_decimals") = true ->
   exists r w', normalizeTokenTx E tx src w = (Ok r, w') /\ decimals r = Int 18) /\
  (forall supplied z,
      supplied = get_opt tx "tokenDecimal" \/
      (nullish (get_opt tx "tokenDecimal") = true /\
       supplied = get_opt tx "token_decimals") ->
      (exists s, supplied = JStr s /\ digits_value s = Some z /\ z <= 2 ^ 53) \/
      (supplied = JNum z /\ 0 < z) ->
      exists r w', normalizeTokenTx E tx src w = (Ok r, w') /\
                   decimals r = Int z /\ 0 <= z).
Proof.
  intros Hn Hts Hbsa. split.
  - intros H1 H2.
    apply decimals_of_normalized; try assumption.
    unfold tx_decimals, or_else.
    rewrite (nullish_falsy _ H1), (nullish_falsy _ H2). reflexivity.
  - intros supplied z Hwhere Hform.
    assert (Hs : numeric_field supplied = Some z).
    { destruct Hform as [(s & -> & Hd & Hle) | (-> & Hpos)]; unfold numeric_field.
      - rewrite Hd. apply Z.leb_le in Hle. rewrite Hle. reflexivity.
      - apply Z.ltb_lt in Hpos. rewrite Hpos. reflexivity. }
    destruct (numeric_field_spec (host E) _ z Hs) as (Ht & Hnum & Hz).
    destruct (decimals_of_normalized E tx src w (Int z) Hn Hts Hbsa)
      as (r & w' & Hrun & Hd); [|eauto].
    unfold tx_decimals, or_else.
    destruct Hwhere as [<- | [H1 <-]].
    + rewrite Ht, Ht. exact Hnum.
    + rewrite (nullish_falsy _ H1), Ht. exact Hnum.
Qed.

(** Etherscan's ["0"], Covalent's [6], and the default. *)
Lemma normalizeTokenTx_decimals_witness :
  (exists r w',
      normalizeTokenTx offline_env
        (JObj [("tokenDecimal", JStr "0")]) "etherscan" w0 = (Ok r, w') /\
      decimals r = Int 0 /\ 0 <= 0) /\
  (exists r w',
      normalizeTokenTx offline_env
        (JObj [("token_decimals", JNum 6)]) "covalent" w0 = (Ok r, w') /\
      decimals r = Int 6 /\ 0 <= 6) /\
  (exists r w',
      normalizeTokenTx offline_env
        (JObj [("value", JStr "1")]) "etherscan" w0 = (Ok r, w') /\
      decimals r = Int 18).
Proof.
  split; [|split].
  - apply (proj2 (normalizeTokenTx_decimals offline_env
                    (JObj [("tokenDecimal", JStr "0")]) "etherscan" w0
                    eq_refl eq_refl eq_refl) (JStr "0") 0).
    + left. reflexivity.
    + left. exists "0". repeat split. simpl. lia.
  - apply (proj2 (normalizeTokenTx_decimals offline_env
                    (JObj [("token_decimals", JNum 6)]) "covalent" w0
                    eq_refl eq_refl eq_refl) (JNum 6) 6).
    + right. split; reflexivity.
    + right. split; [reflexivity|lia].
  - apply (proj1 (normalizeTokenTx_decimals offline_env
                    (JObj [("value", JStr "1")]) "etherscan" w0
                    eq_refl eq_refl eq_refl)); reflexivity.
Defined.

(** C7 as stated fails: nothing validates the decimal count, so a raw
    record can normalise to a negative count, to no number at all, or to
    a number with a fraction. *)
Lemma normalizeTokenTx_decimals_counterexample :
  (exists r w',
      normalizeTokenTx offline_env
        (JObj [("token_decimals", JNum (-1))]) "covalent" w0 = (Ok r, w') /\
      decimals r = Int (-1) /\
      ~ (exists z, decimals r = Int z /\ 0 <= z)) /\
  (exists r w',
      normalizeTokenTx offline_env
        (JObj [("tokenDecimal", JStr "n/a")]) "etherscan" w0 = (Ok r, w') /\
      decimals r = NaN /\
      ~ (exists z, decimals r = Int z /\ 0 <= z)) /\
  (exists r w',
      normalizeTokenTx offline_env
        (JObj [("token_decimals", JFrac 13 2)]) "covalent" w0 = (Ok r, w') /\
      decimals r = Frac 13 2 /\
      ~ (exists z, decimals r = Int z /\ 0 <= z)).
Proof.
  split; [|split].
  - eexists _, _. split; [reflexivity|]. split; [reflexivity|].
    simpl. intros (z & Hz & Hpos). injection Hz as <-. lia.
  - eexists _, _. split; [reflexivity|]. split; [reflexivity|].
    simpl. intros (z & Hz & _). discriminate.
  - eexists _, _. split; [reflexivity|]. split; [reflexivity|].
    simpl. intros (z & Hz & _). discriminate.
Qed.

(** A numeric zero is falsy under [||]: a Covalent transfer whose
    [contract_decimals] is the number 0 comes out with 18 decimals, while
    Etherscan's string ["0"] comes out with 0. *)
Example numeric_zero_decimals :
  (exists r w',
      covalent_transfer offline_env (JObj [("tx_hash", JStr "0xT1")])
        (JObj [("delta", JStr "5"); ("contract_decimals", JNum 0)]) w0
      = (Ok r, w') /\ decimals r = Int 18) /\
  (exists r w',
      normalizeTokenTx offline_env (JObj [("tokenDecimal", JStr "0")])
        "etherscan" w0 = (Ok r, w') /\ decimals r = Int 0).
Proof. split; eexists _, _; split; reflexivity. Qed.

(** ** The timestamp (C8) *)

Lemma new_Date_in_range (z : Z) :
  Z.abs z <= MAX_TIME -> new_Date (Int z) = Int z.
Proof.
  unfold MAX_TIME, new_Date. intros H.
  destruct (Z.abs z <=? 8640000000000000) eqn:Hle; [reflexivity|].
  apply Z.leb_gt in Hle. lia.
Qed.

Lemma time_of_normalized (E : env) (tx : jsval) (src : string)
      (w w' : world) (t : number) :
  nullish tx = false ->
  primitive (get_opt tx "tokenDecimal") = true ->
  primitive (get_opt tx "token_decimals") = true ->
  tx_time E tx w = (Ok t, w') ->
  exists r, normalizeTokenTx E tx src w = (Ok r, w') /\ time r = t.
Proof.
  intros Hn Htd Htds Ht.
  rewrite normalizeTokenTx_run, Ht by assumption.
  destruct (tx_decimals_primitive (host E) tx Htd Htds) as (d & ->).
  eauto.
Qed.

(** C8, as the code has it.  For a raw record that is not [null] and
    whose decimal fields are primitive, the normalisation returns a record
    whose [time] is: seconds times 1000 when [timeStamp] holds a count of
    seconds whose milliseconds fit a date; the clock reading when both
    [timeStamp] and [block_signed_at] are absent or [null]; and the
    invalid date, not the clock reading, when the time field present is a
    string that does not parse.  A [timeStamp] that is a number with a
    fraction is multiplied by 1000 as well, and the date keeps the whole
    milliseconds of the product. *)
Theorem normalizeTokenTx_time (E : env) (tx : jsval) (src : string) (w : world) :
  nullish tx = false ->
  primitive (get_opt tx "tokenDecimal") = true ->
  primitive (get_opt tx "token_decimals") = true ->
  (forall n, numeric_field (get_opt tx "timeStamp") = Some n ->
             n * 1000 <= MAX_TIME ->
             exists r, normalizeTokenTx E tx src w = (Ok r, w) /\
                       time r = Int (n * 1000)) /\
  (nullish (get_opt tx "timeStamp") = true ->
   nullish (get_opt tx "block_signed_at") = true ->
   Z.abs (clock E (ticks w)) <= MAX_TIME ->
   exists r w', normalizeTokenTx E tx src w = (Ok r, w') /\
                time r = Int (clock E (ticks w)) /\
                ticks w' = S (ticks w)) /\
  (forall s, get_opt tx "timeStamp" = JStr s -> s <> "" ->
             StringToNumber (host E) s = NaN ->
             exists r, normalizeTokenTx E tx src w = (Ok r, w) /\ time r = NaN) /\
  (forall s, nullish (get_opt tx "timeStamp") = true ->
             get_opt tx "block_signed_at" = JStr s -> s <> "" ->
             Date_parse (host E) s = NaN ->
             exists r, normalizeTokenTx E tx src w = (Ok r, w) /\ time r = NaN) /\
  (forall num den, get_opt tx "timeStamp" = JFrac num den -> num <> 0 ->
                   exists r, normalizeTokenTx E tx src w = (Ok r, w) /\
                             time r = new_Date (frac_times1000 (host E) num den)).
Proof.
  intros Hn Htd Htds. repeat split.
  - intros n Hf Hr.
    destruct (numeric_field_spec (host E) _ n Hf) as (Ht & Hnum & Hz).
    apply time_of_normalized; try assumption.
    unfold tx_time, bind, lift, ret. rewrite Ht, Hnum.
    unfold times1000. rewrite new_Date_in_range by lia. reflexivity.
  - intros H1 H2 Hc.
    destruct (time_of_normalized E tx src w
                {| requests := requests w; ticks := S (ticks w) |}
                (Int (clock E (ticks w))) Hn Htd Htds) as (r & Hr & Hti).
    { unfold tx_time, bind, ret, Date_now.
      rewrite (nullish_falsy _ H1), (nullish_falsy _ H2).
      rewrite new_Date_in_range by assumption. reflexivity. }
    eauto.
  - intros s Hs Hne Hnan.
    apply time_of_normalized; try assumption.
    unfold tx_time, bind, lift, ret. rewrite Hs.
    assert (Ht : truthy (JStr s) = true) by (destruct s; [congruence|reflexivity]).
    rewrite Ht. unfold ToNumber. rewrite Hnan. reflexivity.
  - intros s H1 Hs Hne Hnan.
    apply time_of_normalized; try assumption.
    unfold tx_time, bind, lift, ret. rewrite (nullish_falsy _ H1), Hs.
    assert (Ht : truthy (JStr s) = true) by (destruct s; [congruence|reflexivity]).
    rewrite Ht. unfold ToString. rewrite Hnan. reflexivity.
  - intros num den Hs Hne.
    apply time_of_normalized; try assumption.
    unfold tx_time, bind, lift, ret. rewrite Hs.
    assert (Ht : truthy (JFrac num den) = true)
      by (apply negb_true_iff, Z.eqb_neq; exact Hne).
    rewrite Ht. reflexivity.
Qed.

(** The specification's [timeStamp: "1700000000"], and a record with no
    time field at all. *)
Lemma normalizeTokenTx_time_witness :
  (exists r,
      normalizeTokenTx offline_env
        (JObj [("timeStamp", JStr "1700000000")]) "etherscan" w0 = (Ok r, w0) /\
      time r = Int (1700000000 * 1000)) /\
  (exists r w',
      normalizeTokenTx offline_env
        (JObj [("value", JStr "1")]) "etherscan" w0 = (Ok r, w') /\
      time r = Int (sample_clock 0) /\ ticks w' = 1%nat).
Proof.
  split.
  - apply (proj1 (normalizeTokenTx_time offline_env
                    (JObj [("timeStamp", JStr "1700000000")]) "etherscan" w0
                    eq_refl eq_refl eq_refl) 1700000000).
    + reflexivity.
    + unfold MAX_TIME. lia.
  - apply (proj1 (proj2 (normalizeTokenTx_time offline_env
                    (JObj [("value", JStr "1")]) "etherscan" w0
                    eq_refl eq_refl eq_refl))).
    + reflexivity.
    + reflexivity.
    + unfold MAX_TIME. simpl. lia.
Defined.

(** C8 as stated fails: a time stamp that does not parse gives the
    invalid date, a count of seconds beyond the range of a date does too,
    and in neither case is the clock read. *)
Lemma normalizeTokenTx_time_counterexample :
  (exists r,
      normalizeTokenTx offline_env
        (JObj [("timeStamp", JStr "n/a")]) "etherscan" w0 = (Ok r, w0) /\
      time r = NaN /\ time r <> Int (sample_clock 0)) /\
  (exists r,
      normalizeTokenTx offline_env
        (JObj [("timeStamp", JStr "9000000000000")]) "etherscan" w0 = (Ok r, w0) /\
      time r = NaN /\ time r <> Int (9000000000000 * 1000)).
Proof.
  split; eexists; (split; [reflexivity|]); (split; [reflexivity|]);
    simpl; discriminate.
Qed.

(** ** Determinism of the normalisation (C9) *)

(** With a time field present the derivation of [time] neither reads the
    clock nor touches the world. *)
Lemma tx_time_fixed (E : env) (tx : jsval) :
  truthy (get_opt tx "timeStamp") = true \/
  truthy (get_opt tx "block_signed_at") = true ->
  exists res, forall w, tx_time E tx w = (res, w).
Proof.
  intros H. unfold tx_time, bind, lift, ret.
  destruct (truthy (get_opt tx "timeStamp")).
  - destruct (ToNumber (host E) _); eauto.
  - destruct H as [H|H]; [discriminate|]. rewrite H.
    destruct (ToString (host E) _); eauto.
Qed.

Lemma normalizeTokenTx_fixed (E : env) (tx : jsval) (src : string) :
  nullish tx = true \/
  truthy (get_opt tx "timeStamp") = true \/
  truthy (get_opt tx "block_signed_at") = true ->
  exists res, forall w, normalizeTokenTx E tx src w = (res, w).
Proof.
  intros H. destruct (nullish tx) eqn:Hn.
  - exists (Throw TypeError). intros w. now apply normalizeTokenTx_nullish.
  - destruct H as [H|H]; [discriminate|].
    destruct (tx_time_fixed E tx H) as (res & Hres).
    destruct res as [t|e].
    + destruct (tx_decimals (host E) tx) as [d|e] eqn:Hd.
      * exists (Ok (tx_record src tx t d)). intros w.
        rewrite normalizeTokenTx_run, Hres, Hd by assumption. reflexivity.
      * exists (Throw e). intros w.
        rewrite normalizeTokenTx_run, Hres, Hd by assumption. reflexivity.
    + exists (Throw e). intros w.
      rewrite normalizeTokenTx_run, Hres by assumption. reflexivity.
Qed.

(** C9, as the code has it.  Normalisation is deterministic up to the
    clock.  For a raw item that carries a time field ([timeStamp] or
    [block_signed_at] truthy), or that is [null] or [undefined], two
    applications of [normalizeTokenTx] in any two worlds have the same
    outcome, record for record or exception for exception, and leave
    their worlds as they found them.  For any raw item, two records
    returned agree on every field but [time].  For an item without a time
    field each call reads the clock once, and the [time] of its record is
    the date of that reading; so the two records are the same record
    whenever the two readings of the clock are equal. *)
Theorem normalizeTokenTx_deterministic (E : env) (tx : jsval) (src : string)
        (w1 w2 : world) :
  (nullish tx = true \/
   truthy (get_opt tx "timeStamp") = true \/
   truthy (get_opt tx "block_signed_at") = true ->
   fst (normalizeTokenTx E tx src w1) = fst (normalizeTokenTx E tx src w2) /\
   snd (normalizeTokenTx E tx src w1) = w1 /\
   snd (normalizeTokenTx E tx src w2) = w2) /\
  (forall r1 r2 w1' w2',
      normalizeTokenTx E tx src w1 = (Ok r1, w1') ->
      normalizeTokenTx E tx src w2 = (Ok r2, w2') ->
      r2 = tx_record src tx (time r2) (decimals r1) /\
      r1 = tx_record src tx (time r1) (decimals r1) /\
      (truthy (get_opt tx "timeStamp") = false ->
       truthy (get_opt tx "block_signed_at") = false ->
       time r1 = new_Date (Int (clock E (ticks w1))) /\
       time r2 = new_Date (Int (clock E (ticks w2))) /\
       w1' = {| requests := requests w1; ticks := S (ticks w1) |} /\
       w2' = {| requests := requests w2; ticks := S (ticks w2) |}) /\
      (clock E (ticks w1) = clock E (ticks w2) -> r1 = r2)).
Proof.
  split.
  - intros H. destruct (normalizeTokenTx_fixed E tx src H) as (res & Hres).
    rewrite !Hres. auto.
  - intros r1 r2 w1' w2' H1 H2.
    apply normalizeTokenTx_ok_inv in H1 as (Hn & t1 & d1 & Ht1 & Hd1 & ->).
    apply normalizeTokenTx_ok_inv in H2 as (_ & t2 & d2 & Ht2 & Hd2 & ->).
    assert (d2 = d1) by congruence. subst d2.
    cbn [time decimals tx_record].
    split; [reflexivity|]. split; [reflexivity|].
    revert Ht1 Ht2. unfold tx_time, bind, lift, ret, Date_now.
    destruct (truthy (get_opt tx "timeStamp")).
    + destruct (ToNumber (host E) _); [|discriminate].
      intros [= <- _] [= <- _]. split; [discriminate|reflexivity].
    + destruct (truthy (get_opt tx "block_signed_at")).
      * destruct (ToString (host E) _); [|discriminate].
        intros [= <- _] [= <- _]. split; [discriminate|reflexivity].
      * intros [= <- <-] [= <- <-]. split; [auto|].
        intros Hclock. rewrite Hclock. reflexivity.
Qed.

(** The specification's Etherscan record, normalised in two different
    worlds; the same record without its time stamp, normalised twice in a
    row; and that record again under a clock that stands still. *)
Lemma normalizeTokenTx_deterministic_witness :
  (fst (normalizeTokenTx offline_env etherscan_raw_sample "etherscan" w0)
   = fst (normalizeTokenTx offline_env etherscan_raw_sample "etherscan" late_world) /\
   snd (normalizeTokenTx offline_env etherscan_raw_sample "etherscan" w0) = w0 /\
   snd (normalizeTokenTx offline_env etherscan_raw_sample "etherscan" late_world)
   = late_world) /\
  (exists r1 r2,
      normalizeTokenTx offline_env unstamped_raw_sample "etherscan" w0
      = (Ok r1, second_world) /\
      normalizeTokenTx offline_env unstamped_raw_sample "etherscan" second_world
      = (Ok r2, {| requests := []; ticks := 2 |}) /\
      time r1 = Int 1700000000000 /\ time r2 = Int 1700000000001) /\
  (exists r1 r2,
      normalizeTokenTx frozen_env unstamped_raw_sample "etherscan" w0
      = (Ok r1, second_world) /\
      normalizeTokenTx frozen_env unstamped_raw_sample "etherscan" second_world
      = (Ok r2, {| requests := []; ticks := 2 |}) /\
      r1 = r2).
Proof.
  split; [|split].
  - apply (proj1 (normalizeTokenTx_deterministic offline_env etherscan_raw_sample
                    "etherscan" w0 late_world)).
    right. left. reflexivity.
  - eexists _, _. split; [vm_compute; reflexivity|].
    split; [vm_compute; reflexivity|].
    destruct (proj2 (normalizeTokenTx_deterministic offline_env
                       unstamped_raw_sample "etherscan" w0 second_world)
                _ _ _ _ eq_refl eq_refl) as (_ & _ & Hclock & _).
    destruct (Hclock eq_refl eq_refl) as (Ht1 & Ht2 & _).
    split; [exact Ht1|exact Ht2].
  - eexists _, _. split; [vm_compute; reflexivity|].
    split; [vm_compute; reflexivity|].
    apply (proj2 (normalizeTokenTx_deterministic frozen_env
                    unstamped_raw_sample "etherscan" w0 second_world)
             _ _ _ _ eq_refl eq_refl).
    reflexivity.
Defined.

(** C9 as stated fails: a raw item with no time field is stamped with the
    clock, so normalising it twice in a row gives two different records. *)
Lemma normalizeTokenTx_deterministic_counterexample :
  exists r1 w1 r2 w2,
    normalizeTokenTx offline_env unstamped_raw_sample "etherscan" w0 = (Ok r1, w1) /\
    normalizeTokenTx offline_env unstamped_raw_sample "etherscan" w1 = (Ok r2, w2) /\
    r1 <> r2.
Proof.
  eexists _, _, _, _.
  split; [reflexivity|]. split; [reflexivity|].
  intros H. apply (f_equal time) in H. vm_compute in H. discriminate.
Qed.

(** ** Sequencing lemmas *)

Lemma mapM_Forall2 {A B} (f : A -> M B) (P : A -> bool) (R : A -> B -> Prop) :
  (forall a w, P a = true -> exists b w', f a w = (Ok b, w') /\ R a b) ->
  forall l w, forallb P l = true ->
              exists bs w', mapM f l w = (Ok bs, w') /\ Forall2 R l bs.
Proof.
  intros Hf. induction l as [|a l IH]; intros w Hall.
  - exists [], w. split; [reflexivity|constructor].
  - simpl in Hall. apply andb_true_iff in Hall as [Ha Hl].
    destruct (Hf a w Ha) as (b & w1 & Hrun & Hr).
    destruct (IH w1 Hl) as (bs & w2 & Hrun' & Hrs).
    exists (b :: bs), w2. split; [|constructor; assumption].
    simpl. unfold bind. rewrite Hrun, Hrun'. reflexivity.
Qed.

Lemma mapM_throws {A B} (f : A -> M B) (e0 : exn) :
  (forall a w e w', f a w = (Throw e, w') -> e = e0) ->
  forall l w e w', mapM f l w = (Throw e, w') -> e = e0.
Proof.
  intros Hf. induction l as [|a l IH]; intros w e w' H.
  - discriminate.
  - simpl in H. unfold bind in H.
    destruct (f a w) as [[b|e1] w1] eqn:Ha.
    + destruct (mapM f l w1) as [[bs|e2] w2] eqn:Hl.
      * discriminate.
      * injection H as <- <-. eapply IH; eassumption.
    + injection H as <- <-. eapply Hf; eassumption.
Qed.

Lemma mapM_quiet {A B} (f : A -> M B) :
  (forall a, quiet (f a)) -> forall l, quiet (mapM f l).
Proof.
  intros Hf. induction l as [|a l IH]; intros w.
  - reflexivity.
  - simpl. unfold bind.
    specialize (Hf a w).
    destruct (f a w) as [[b|e] w1]; simpl in Hf; [|exact Hf].
    specialize (IH w1).
    destruct (mapM f l w1) as [[bs|e] w2]; simpl in IH |- *; congruence.
Qed.

(** ** What the normalisation can throw, and that it sends nothing *)

Lemma tx_time_throws (E : env) (tx : jsval) (w w' : world) (e : exn) :
  tx_time E tx w = (Throw e, w') -> e = TypeError.
Proof.
  unfold tx_time, bind, lift, ret, Date_now.
  destruct (truthy (get_opt tx "timeStamp")).
  - destruct (ToNumber (host E) _) eqn:Hn; [discriminate|].
    intros [= <- _]. eapply ToNumber_throws; eassumption.
  - destruct (truthy (get_opt tx "block_signed_at")).
    + destruct (ToString (host E) _) eqn:Hs; [discriminate|].
      intros [= <- _]. eapply ToString_throws; eassumption.
    + discriminate.
Qed.

Lemma tx_time_quiet (E : env) (tx : jsval) : quiet (tx_time E tx).
Proof.
  intros w. unfold tx_time, bind, lift, ret, Date_now.
  destruct (truthy (get_opt tx "timeStamp")).
  - destruct (ToNumber (host E) _); reflexivity.
  - destruct (truthy (get_opt tx "block_signed_at")).
    + destruct (ToString (host E) _); reflexivity.
    + reflexivity.
Qed.

Lemma normalizeTokenTx_throws (E : env) (tx : jsval) (src : string)
      (w w' : world) (e : exn) :
  normalizeTokenTx E tx src w = (Throw e, w') -> e = TypeError.
Proof.
  destruct (nullish tx) eqn:Hn.
  - rewrite normalizeTokenTx_nullish by assumption. congruence.
  - rewrite normalizeTokenTx_run by assumption.
    destruct (tx_time E tx w) as [[t|e1] w1] eqn:Ht.
    + destruct (tx_decimals (host E) tx) as [d|e2] eqn:Hd; [discriminate|].
      intros [= <- _]. eapply ToNumber_throws; exact Hd.
    + intros [= <- _]. eapply tx_time_throws; eassumption.
Qed.

Lemma normalizeTokenTx_quiet (E : env) (tx : jsval) (src : string) :
  quiet (normalizeTokenTx E tx src).
Proof.
  intros w. destruct (nullish tx) eqn:Hn.
  - rewrite normalizeTokenTx_nullish by assumption. reflexivity.
  - rewrite normalizeTokenTx_run by assumption.
    pose proof (tx_time_quiet E tx w) as Hq.
    destruct (tx_time E tx w) as [[t|e1] w1]; simpl in Hq.
    + destruct (tx_decimals (host E) tx); exact Hq.
    + exact Hq.
Qed.

Lemma normalizeTokenTx_plain (E : env) (tx : jsval) (src : string) (w : world) :
  plain_tx tx = true ->
  exists r w', normalizeTokenTx E tx src w = (Ok r, w') /\
               exists t d, r = tx_record src tx t d.
Proof.
  unfold plain_tx. rewrite !andb_true_iff, negb_true_iff.
  intros ((((Hn & Hts) & Hbsa) & Htd) & Htds).
  rewrite normalizeTokenTx_run by assumption.
  destruct (tx_time_primitive E tx w Hts Hbsa) as (t & w' & ->).
  destruct (tx_decimals_primitive (host E) tx Htd Htds) as (d & ->).
  eauto 6.
Qed.

(** ** The Covalent adapter: flattening (C5, C10) *)

Lemma converts_primitive (h : Host) (v : jsval) :
  primitive v = true -> converts h v = true.
Proof.
  intros Hp. unfold converts.
  destruct (ToString_primitive h v Hp) as (s & ->). reflexivity.
Qed.

(** The two conversions return, or throw, together. *)
Lemma converts_spec (h : Host) (v : jsval) :
  (converts h v = true ->
   (exists s, ToString h v = Ok s) /\ (exists n, ToNumber h v = Ok n)) /\
  (converts h v = false ->
   ToString h v = Throw TypeError /\ ToNumber h v = Throw TypeError).
Proof.
  unfold converts.
  destruct v; simpl; try (split; [eauto|discriminate]);
    destruct (ToPrimitive h _); (split; [eauto|discriminate])
    || (split; [discriminate|auto]).
Qed.

Lemma converts_falsy (h : Host) (v : jsval) :
  truthy v = false -> converts h v = true.
Proof.
  intros Hf. apply converts_primitive. destruct v; try reflexivity; discriminate.
Qed.

(** The time and the decimal count of a Covalent event. *)
Lemma covalent_raw_time (E : env) (item t : jsval) (w : world) :
  tx_time E (covalent_raw item t) w
  = if truthy (get_opt item "block_signed_at") then
      match ToString (host E) (get_opt item "block_signed_at") with
      | Ok s => (Ok (new_Date (Date_parse (host E) s)), w)
      | Throw e => (Throw e, w)
      end
    else
      (Ok (new_Date (Int (clock E (ticks w)))),
       {| requests := requests w; ticks := S (ticks w) |}).
Proof.
  unfold tx_time, bind, lift, ret, Date_now.
  change (get_opt (covalent_raw item t) "timeStamp") with JUndefined.
  change (get_opt (covalent_raw item t) "block_signed_at")
    with (get_opt item "block_signed_at").
  cbn [truthy].
  destruct (truthy (get_opt item "block_signed_at")); [|reflexivity].
  destruct (ToString (host E) _); reflexivity.
Qed.

Lemma covalent_raw_decimals (h : Host) (item t : jsval) :
  tx_decimals h (covalent_raw item t)
  = ToNumber h (or_else (get_opt t "contract_decimals") (JNum 18)).
Proof. reflexivity. Qed.

(** One event: a record when it is accepted, a [TypeError] when not. *)
Lemma covalent_transfer_event (E : env) (item t : jsval) (w : world) :
  nullish item = false ->
  (accepts_event (host E) item t = true ->
   exists r w', covalent_transfer E item t w = (Ok r, w') /\
                inherits (host E) (item, t) r) /\
  (accepts_event (host E) item t = false ->
   exists w', covalent_transfer E item t w = (Throw TypeError, w')).
Proof.
  intros Hi. unfold accepts_event.
  destruct (nullish t) eqn:Ht.
  { split; [discriminate|]. intros _. exists w.
    apply covalent_transfer_nullish. auto. }
  rewrite covalent_transfer_run by assumption.
  rewrite normalizeTokenTx_run by reflexivity.
  rewrite covalent_raw_time, covalent_raw_decimals.
  cbn [negb andb].
  destruct (converts_spec (host E) (get_opt item "block_signed_at"))
    as [Hbok Hbno].
  destruct (converts_spec (host E) (get_opt t "contract_decimals"))
    as [Hdok Hdno].
  destruct (converts (host E) (get_opt item "block_signed_at")) eqn:Hb.
  - destruct (Hbok eq_refl) as ((s & Hs) & _).
    destruct (converts (host E) (get_opt t "contract_decimals")) eqn:Hd.
    + split; [intros _|discriminate].
      destruct (Hdok eq_refl) as (_ & (n & Hn)).
      assert (Hnum : exists d, ToNumber (host E)
                                 (or_else (get_opt t "contract_decimals") (JNum 18))
                               = Ok d).
      { unfold or_else. destruct (truthy _); simpl; eauto. }
      destruct Hnum as (d & Hnum). rewrite Hnum, Hs.
      destruct (truthy (get_opt item "block_signed_at")) eqn:Htr.
      * eexists _, _. split; [reflexivity|].
        unfold inherits. repeat split.
        intros _ s' Hs'. cbn [time tx_record]. congruence.
      * eexists _, _. split; [reflexivity|].
        unfold inherits. repeat split. intros Hx. congruence.
    + split; [discriminate|intros _].
      destruct (Hdno eq_refl) as (_ & Hn).
      assert (Htr : truthy (get_opt t "contract_decimals") = true).
      { destruct (truthy _) eqn:Hf; [reflexivity|].
        rewrite (converts_falsy _ _ Hf) in Hd. discriminate. }
      unfold or_else. rewrite Htr, Hn, Hs.
      destruct (truthy (get_opt item "block_signed_at")); eauto.
  - split; [discriminate|intros _].
    destruct (Hbno eq_refl) as (Hs & _).
    assert (Htr : truthy (get_opt item "block_signed_at") = true).
    { destruct (truthy _) eqn:Hf; [reflexivity|].
      rewrite (converts_falsy _ _ Hf) in Hb. discriminate. }
    rewrite Htr, Hs. eauto.
Qed.

(** A loop over accepted elements returns; a loop that meets an element
    that is not accepted throws what that element throws. *)
Lemma mapM_decided {A B} (f : A -> M B) (P : A -> bool) (e0 : exn) :
  (forall a w, P a = true -> exists b w', f a w = (Ok b, w')) ->
  (forall a w, P a = false -> exists w', f a w = (Throw e0, w')) ->
  forall l w,
    if forallb P l
    then exists bs w', mapM f l w = (Ok bs, w')
    else exists w', mapM f l w = (Throw e0, w').
Proof.
  intros Hok Hno. induction l as [|a l IH]; intros w.
  - simpl. eexists _, _. reflexivity.
  - cbn [forallb mapM]. unfold bind, ret.
    destruct (P a) eqn:Ha.
    + destruct (Hok a w Ha) as (b & w1 & ->). cbn [andb].
      specialize (IH w1).
      destruct (forallb P l).
      * destruct IH as (bs & w2 & ->). eexists _, _. reflexivity.
      * destruct IH as (w2 & ->). eexists. reflexivity.
    + destruct (Hno a w Ha) as (w1 & ->). eexists. reflexivity.
Qed.

Lemma covalent_item_decided (E : env) (item : jsval) (w : world) :
  if accepts_item (host E) item
  then exists rs w', covalent_item E item w = (Ok rs, w')
  else exists w', covalent_item E item w = (Throw TypeError, w').
Proof.
  unfold accepts_item, covalent_item, bind, lift.
  destruct (nullish item) eqn:Hn.
  { exists w. destruct item; try discriminate; reflexivity. }
  cbn [negb andb]. rewrite (get_nonnullish item _ Hn).
  destruct (iterate (or_else (get_opt item "transfers") (JArr []))) as [ts|e]
    eqn:Hit.
  - apply (mapM_decided (covalent_transfer E item) (accepts_event (host E) item)).
    + intros t w1 Ht.
      destruct (proj1 (covalent_transfer_event E item t w1 Hn) Ht)
        as (r & w2 & Hrun & _). eauto.
    + intros t w1 Ht. exact (proj2 (covalent_transfer_event E item t w1 Hn) Ht).
  - exists w.
    destruct (or_else (get_opt item "transfers") (JArr [])); simpl in Hit;
      congruence.
Qed.

(** The flattening returns a list exactly on the responses it accepts. *)
Lemma covalent_flatten_decided (E : env) (body : jsval) (w : world) :
  if accepts_body (host E) body
  then exists rs w', covalent_flatten E body w = (Ok rs, w')
  else exists w', covalent_flatten E body w = (Throw TypeError, w').
Proof.
  assert (Hok : forall item w1,
             accepts_item (host E) item = true ->
             exists rs w', covalent_item E item w1 = (Ok rs, w')).
  { intros item w1 Hi. pose proof (covalent_item_decided E item w1) as H.
    rewrite Hi in H. exact H. }
  assert (Hno : forall item w1,
             accepts_item (host E) item = false ->
             exists w', covalent_item E item w1 = (Throw TypeError, w')).
  { intros item w1 Hi. pose proof (covalent_item_decided E item w1) as H.
    rewrite Hi in H. exact H. }
  unfold accepts_body, covalent_flatten, bind, lift, ret.
  destruct (iterate (or_else (get_opt (get_opt body "data") "items") (JArr [])))
    as [its|e] eqn:Hit.
  - pose proof (mapM_decided (covalent_item E) (accepts_item (host E)) TypeError
                  Hok Hno its w) as Hd.
    destruct (forallb (accepts_item (host E)) its).
    + destruct Hd as (rss & w1 & ->). eexists _, _. reflexivity.
    + destruct Hd as (w1 & ->). eexists. reflexivity.
  - exists w.
    destruct (or_else (get_opt (get_opt body "data") "items") (JArr []));
      simpl in Hit; congruence.
Qed.

Lemma covalent_item_schema (E : env) (item : jsval) (w : world) :
  schema_item (host E) item = true ->
  exists rs w', covalent_item E item w = (Ok rs, w') /\
                Forall2 (fun t r => inherits (host E) (item, t) r)
                        (transfers_of item) rs.
Proof.
  unfold schema_item. rewrite !andb_true_iff, negb_true_iff.
  intros ((Hn & Harr) & Hall).
  unfold covalent_item, bind, lift.
  rewrite (get_nonnullish item _ Hn).
  unfold transfers_of in *.
  destruct (or_else (get_opt item "transfers") (JArr [])) as [| | | | |ts| |];
    try discriminate.
  cbn [iterate].
  apply (mapM_Forall2 (covalent_transfer E item) (accepts_event (host E) item)
           (fun t r => inherits (host E) (item, t) r)); [|exact Hall].
  intros t w1 Ht. exact (proj1 (covalent_transfer_event E item t w1 Hn) Ht).
Qed.

Lemma Forall2_concat_pairs {B} (R : jsval * jsval -> B -> Prop)
      (its : list jsval) (rss : list (list B)) :
  Forall2 (fun item rs => Forall2 (fun t r => R (item, t) r) (transfers_of item) rs)
          its rss ->
  Forall2 R (flat_map (fun item => map (pair item) (transfers_of item)) its)
          (List.concat rss).
Proof.
  induction 1 as [|item rs its rss Hhead _ IH]; simpl.
  - constructor.
  - apply Forall2_app; [|exact IH].
    clear IH. induction Hhead; simpl; constructor; assumption.
Qed.

Lemma covalent_flatten_schema (E : env) (body : jsval) (w : world) :
  schema_body (host E) body = true ->
  exists rs w', covalent_flatten E body w = (Ok rs, w') /\
                Forall2 (inherits (host E)) (events_of body) rs.
Proof.
  unfold schema_body. rewrite andb_true_iff. intros (Harr & Hall).
  unfold covalent_flatten, events_of, bind, lift, ret.
  unfold items_of in *.
  destruct (or_else (get_opt (get_opt body "data") "items") (JArr []))
    as [| | | | |its| |]; try discriminate.
  cbn [iterate].
  destruct (mapM_Forall2 (covalent_item E) (schema_item (host E))
              (fun item rs => Forall2 (fun t r => inherits (host E) (item, t) r)
                                      (transfers_of item) rs)
              (fun item w1 => covalent_item_schema E item w1) its w Hall)
    as (rss & w' & -> & Hrss).
  exists (List.concat rss), w'. split; [reflexivity|].
  now apply Forall2_concat_pairs.
Qed.

Lemma fetchJSON_answers (E : env) (body : jsval) (u : string)
      (i : option (list (string * string))) (w : world) :
  answers E body ->
  fetchJSON E u i w = (Ok body, sent {| url := u; init := i |} w).
Proof.
  intros Hnet. unfold fetchJSON, fetch, bind, lift.
  destruct (Hnet {| url := u; init := i |}) as (st & tx & ->). reflexivity.
Qed.

Lemma plain_options_param (options : options_arg) :
  plain_options options = true ->
  exists o,
    bind_options options = Ok o /\
    (forall k dflt,
        In k ["page"; "offset"; "sort"; "chainId"; "pageSize"] ->
        primitive dflt = true ->
        primitive (param o k dflt) = true) /\
    (forall h, exists s, sort_text h o = Ok s).
Proof.
  intros Hp. unfold plain_options in Hp.
  destruct (bind_options options) as [o|e]; [|discriminate].
  exists o. split; [reflexivity|].
  assert (Hprim : forall k dflt,
             In k ["page"; "offset"; "sort"; "chainId"; "pageSize"] ->
             primitive dflt = true -> primitive (param o k dflt) = true).
  { intros k dflt Hin Hd. rewrite forallb_forall in Hp. specialize (Hp k Hin).
    unfold param. destruct (get_opt o k); auto. }
  split; [exact Hprim|].
  intros h. unfold sort_text.
  destruct o; eauto; apply ToString_primitive, Hprim; simpl; auto.
Qed.

(** With its credential set, plain options and a network that answers
    [body], the Covalent adapter sends one request and flattens [body]. *)
Lemma fetchCovalentTokenTransfers_answers (E : env) (address : string)
      (options : options_arg) (body : jsval) (w : world) :
  configured (covalentKey E) = true ->
  plain_options options = true ->
  answers E body ->
  exists req, fetchCovalentTokenTransfers E address options w
              = covalent_flatten E body (sent req w).
Proof.
  intros Hkey Hopt Hnet.
  destruct (plain_options_param options Hopt) as (o & Hb & Hprim & _).
  unfold fetchCovalentTokenTransfers. step Hb. rewrite Hkey. cbn [negb].
  destruct (ToString_primitive (host E) (param o "chainId" (JNum 1)))
    as (s1 & Hs1); [apply Hprim; simpl; auto|].
  destruct (ToString_primitive (host E) (param o "pageSize" (JNum 50)))
    as (s2 & Hs2); [apply Hprim; simpl; auto 6|].
  step Hs1. step Hs2.
  unfold bind at 1. rewrite (fetchJSON_answers E body) by assumption.
  eexists. reflexivity.
Qed.

Lemma covalent_flatten_throws (E : env) (body : jsval) (w w' : world) (e : exn) :
  covalent_flatten E body w = (Throw e, w') -> e = TypeError.
Proof.
  assert (Htr : forall item t w1 e1 w2,
             covalent_transfer E item t w1 = (Throw e1, w2) -> e1 = TypeError).
  { intros item t w1 e1 w2.
    destruct (nullish item) eqn:Hi.
    { rewrite covalent_transfer_nullish by auto. congruence. }
    destruct (nullish t) eqn:Ht.
    { rewrite covalent_transfer_nullish by auto. congruence. }
    rewrite covalent_transfer_run by assumption.
    apply normalizeTokenTx_throws. }
  assert (Hit : forall item w1 e1 w2,
             covalent_item E item w1 = (Throw e1, w2) -> e1 = TypeError).
  { intros item w1 e1 w2. unfold covalent_item, bind, lift.
    destruct (get item "transfers") as [tr|e2] eqn:Hg.
    - destruct (iterate (or_else tr (JArr []))) as [ts|e3] eqn:Hiter.
      + apply mapM_throws. intros t. apply Htr.
      + intros [= <- _].
        destruct (or_else tr (JArr [])); simpl in Hiter; congruence.
    - intros [= <- _]. destruct item; simpl in Hg; congruence. }
  unfold covalent_flatten, bind, lift, ret.
  destruct (iterate _) as [its|e1] eqn:Hiter.
  - destruct (mapM (covalent_item E) its w) as [[rss|e2] w2] eqn:Hm; [discriminate|].
    intros [= <- _]. eapply mapM_throws; [|exact Hm]. exact Hit.
  - intros [= <- _].
    destruct (or_else _ _); simpl in Hiter; congruence.
Qed.

(** C5, as the code has it.  With its credential set, plain options, and
    a response that follows the provider's schema
    [data.items[].transfers[]] (the items missing or an array, no item
    [null] or [undefined], the transfers of an item missing or an array,
    no transfer [null] or [undefined], every block time and decimal count
    a value that converts), the Covalent adapter returns exactly one
    record per transfer event, across all transactions and in document
    order; each record takes the hash of its transaction, the block time
    of its transaction when it has one ([block_signed_at] truthy), and
    addresses, token fields and amount from its event.  In particular one
    transaction with a block time and two events gives two records with
    the same hash and the same time, carrying the addresses and amounts
    of their own events. *)
Theorem fetchCovalentTokenTransfers_flattens (E : env) (address : string)
        (options : options_arg) (body : jsval) (w : world) :
  configured (covalentKey E) = true ->
  plain_options options = true ->
  answers E body ->
  schema_body (host E) body = true ->
  exists rs w',
    fetchCovalentTokenTransfers E address options w = (Ok rs, w') /\
    List.length rs = List.length (events_of body) /\
    Forall2 (inherits (host E)) (events_of body) rs /\
    (forall item t1 t2,
        items_of body = [item] -> transfers_of item = [t1; t2] ->
        truthy (get_opt item "block_signed_at") = true ->
        exists r1 r2,
          rs = [r1; r2] /\
          hash r1 = hash r2 /\ time r1 = time r2 /\
          from r1 = get_opt t1 "from_address" /\ from r2 = get_opt t2 "from_address" /\
          to r1 = get_opt t1 "to_address" /\ to r2 = get_opt t2 "to_address" /\
          value r1 = get_opt t1 "delta" /\ value r2 = get_opt t2 "delta").
Proof.
  intros Hkey Hopt Hnet Hschema.
  destruct (fetchCovalentTokenTransfers_answers E address options body w
              Hkey Hopt Hnet) as (req & ->).
  destruct (covalent_flatten_schema E body (sent req w) Hschema)
    as (rs & w' & -> & Hall).
  exists rs, w'. split; [reflexivity|]. split; [|split; [exact Hall|]].
  - symmetry. eapply Forall2_length. exact Hall.
  - intros item t1 t2 Hitems Htrans Htruthy.
    assert (Hconv : converts (host E) (get_opt item "block_signed_at") = true).
    { unfold schema_body in Hschema. rewrite Hitems in Hschema.
      apply andb_true_iff in Hschema as [_ Hs]. simpl in Hs.
      unfold schema_item in Hs. rewrite Htrans in Hs. simpl in Hs.
      unfold accepts_event in Hs. rewrite !andb_true_iff in Hs. tauto. }
    destruct (proj1 (converts_spec (host E) _) Hconv) as ((s & Hs) & _).
    unfold events_of in Hall. rewrite Hitems in Hall. simpl in Hall.
    rewrite Htrans in Hall. simpl in Hall.
    inversion Hall as [|ev1 r1 evs1 rs1 H1 Hrest]; subst.
    inversion Hrest as [|ev2 r2 evs2 rs2 H2 Hnil]; subst.
    inversion Hnil; subst.
    exists r1, r2. unfold inherits in H1, H2.
    destruct H1 as (_ & Hh1 & Hf1 & Hto1 & _ & _ & _ & Hv1 & Ht1).
    destruct H2 as (_ & Hh2 & Hf2 & Hto2 & _ & _ & _ & Hv2 & Ht2).
    rewrite (Ht1 Htruthy s Hs), (Ht2 Htruthy s Hs).
    repeat split; congruence.
Qed.

(** The two-event transaction of the specification's scenario. *)
Lemma fetchCovalentTokenTransfers_flattens_witness :
  exists rs w',
    fetchCovalentTokenTransfers (covalent_env covalent_body_sample) "0xabc"
      app_options w0 = (Ok rs, w') /\
    List.length rs = 2%nat /\
    Forall2 (inherits sample_host) (events_of covalent_body_sample) rs.
Proof.
  destruct (fetchCovalentTokenTransfers_flattens
              (covalent_env covalent_body_sample) "0xabc" app_options
              covalent_body_sample w0) as (rs & w' & Hrun & Hlen & Hall & _).
  - reflexivity.
  - reflexivity.
  - intros req. eexists _, _. reflexivity.
  - reflexivity.
  - exists rs, w'. split; [exact Hrun|]. split; [exact Hlen|exact Hall].
Defined.

(** C5 as stated fails, twice over.  A transaction without a block time
    has nothing for its records to inherit: each of its two events is
    stamped with its own reading of the clock, and the two records differ
    in their time.  And not every response is flattened: a transfer list
    holding [null] ends the adapter with a [TypeError] and no record. *)
Lemma fetchCovalentTokenTransfers_flattens_counterexample :
  (exists r1 r2 w',
      fetchCovalentTokenTransfers (covalent_env covalent_body_unstamped) "0xabc"
        app_options w0 = (Ok [r1; r2], w') /\
      hash r1 = hash r2 /\ time r1 <> time r2) /\
  fst (fetchCovalentTokenTransfers (covalent_env covalent_body_null_transfer)
         "0xabc" app_options w0) = Throw TypeError.
Proof.
  split; [|reflexivity].
  eexists _, _, _. split; [vm_compute; reflexivity|]. split; [reflexivity|].
  intros H. vm_compute in H. discriminate.
Qed.

(** The records of the two-event scenario, computed. *)
Example fetchCovalentTokenTransfers_two_events :
  fst (fetchCovalentTokenTransfers (covalent_env covalent_body_sample) "0xabc"
         app_options w0)
  = Ok [ {| source := "covalent"; hash := JStr "0xT1";
            time := Int 1700000000000;
            from := JStr "0x1"; to := JStr "0x2";
            tokenSymbol := JStr "USDT"; tokenName := JUndefined;
            contractAddress := JUndefined;
            value := JStr "1000000"; decimals := Int 6 |};
         {| source := "covalent"; hash := JStr "0xT1";
            time := Int 1700000000000;
            from := JStr "0x2"; to := JStr "0x3";
            tokenSymbol := JStr "DAI"; tokenName := JUndefined;
            contractAddress := JUndefined;
            value := JStr "5000000000000000000"; decimals := Int 18 |} ].
Proof. reflexivity. Qed.

(** C10, as the code has it.  After a successful transport the Covalent
    adapter raises no error of its own: the only exception it can end
    with is the language's [TypeError].  It returns a list exactly on the
    responses it accepts: [data.items] falsy or iterable, no item [null]
    or [undefined], the [transfers] of every item falsy or iterable, no
    transfer [null] or [undefined], and the block time and the decimal
    count of every event a value that converts.  A missing or [null]
    [data] or [data.items] is an empty item list, and an item whose
    [transfers] is missing contributes no record. *)
Theorem fetchCovalentTokenTransfers_no_provider_error (E : env) (address : string)
        (options : options_arg) (body : jsval) (w : world) :
  configured (covalentKey E) = true ->
  plain_options options = true ->
  answers E body ->
  (forall e w', fetchCovalentTokenTransfers E address options w = (Throw e, w') ->
                e = TypeError) /\
  ((exists rs w', fetchCovalentTokenTransfers E address options w = (Ok rs, w'))
   <-> accepts_body (host E) body = true) /\
  (truthy (get_opt (get_opt body "data") "items") = false ->
   exists w', fetchCovalentTokenTransfers E address options w = (Ok [], w')) /\
  (forall item w1, nullish item = false ->
                   truthy (get_opt item "transfers") = false ->
                   covalent_item E item w1 = (Ok [], w1)).
Proof.
  intros Hkey Hopt Hnet.
  destruct (fetchCovalentTokenTransfers_answers E address options body w
              Hkey Hopt Hnet) as (req & ->).
  split; [|split; [|split]].
  - intros e w'. apply covalent_flatten_throws.
  - pose proof (covalent_flatten_decided E body (sent req w)) as Hd.
    destruct (accepts_body (host E) body).
    + split; [reflexivity|intros _; exact Hd].
    + destruct Hd as (w1 & Hd). split; [|discriminate].
      intros (rs & w' & Hrun). rewrite Hd in Hrun. discriminate.
  - intros Hfalsy. exists (sent req w).
    unfold covalent_flatten, or_else. rewrite Hfalsy. reflexivity.
  - intros item w1 Hn Hfalsy. unfold covalent_item, bind, lift.
    rewrite (get_nonnullish item _ Hn). unfold or_else. rewrite Hfalsy.
    reflexivity.
Qed.

(** A response without [data], and one that follows the schema. *)
Lemma fetchCovalentTokenTransfers_no_provider_error_witness :
  (exists w', fetchCovalentTokenTransfers (covalent_env (JObj [])) "0xabc"
                app_options w0 = (Ok [], w')) /\
  (exists rs w', fetchCovalentTokenTransfers (covalent_env covalent_body_sample)
                   "0xabc" app_options w0 = (Ok rs, w')).
Proof.
  split.
  - apply (proj1 (proj2 (proj2 (fetchCovalentTokenTransfers_no_provider_error
             (covalent_env (JObj [])) "0xabc" app_options (JObj []) w0
             eq_refl eq_refl
             (fun req => ex_intro _ _ (ex_intro _ _ eq_refl)))))).
    reflexivity.
  - apply (proj2 (proj1 (proj2 (fetchCovalentTokenTransfers_no_provider_error
             (covalent_env covalent_body_sample) "0xabc" app_options
             covalent_body_sample w0 eq_refl eq_refl
             (fun req => ex_intro _ _ (ex_intro _ _ eq_refl)))))).
    reflexivity.
Defined.

(** C10 as stated fails: a body is not always turned into a list.  An
    item list holding [null] ends the adapter with a [TypeError]; so does
    a response made of arrays of objects whose block time is an object
    that does not convert. *)
Lemma fetchCovalentTokenTransfers_no_provider_error_counterexample :
  fst (fetchCovalentTokenTransfers (covalent_env covalent_body_null_item)
         "0xabc" app_options w0) = Throw TypeError /\
  ~ (exists rs, fst (fetchCovalentTokenTransfers
                       (covalent_env covalent_body_null_item)
                       "0xabc" app_options w0) = Ok rs) /\
  fst (fetchCovalentTokenTransfers (covalent_env covalent_body_odd_time)
         "0xabc" app_options w0) = Throw TypeError.
Proof.
  split; [reflexivity|]. split; [|reflexivity].
  intros (rs & H). vm_compute in H. discriminate.
Qed.

(** ** The Etherscan adapter: the three response shapes (C4) *)

(** With its credential set, plain options and a network that answers
    [body], the Etherscan adapter sends one request and parses [body]. *)
Lemma fetchEtherscanTokenTransfers_answers (E : env) (address : string)
      (options : options_arg) (body : jsval) (w : world) :
  configured (etherscanKey E) = true ->
  plain_options options = true ->
  answers E body ->
  exists req, fetchEtherscanTokenTransfers E address options w
              = etherscan_parse E body (sent req w).
Proof.
  intros Hkey Hopt Hnet.
  destruct (plain_options_param options Hopt) as (o & Hb & Hprim & Hsort).
  unfold fetchEtherscanTokenTransfers. step Hb. rewrite Hkey. cbn [negb].
  destruct (ToString_primitive (host E) (param o "chainId" (JNum 1)))
    as (s1 & Hs1); [apply Hprim; simpl; auto|].
  destruct (ToString_primitive (host E) (param o "page" (JNum 1)))
    as (s2 & Hs2); [apply Hprim; simpl; auto|].
  destruct (ToString_primitive (host E) (param o "offset" (JNum 50)))
    as (s3 & Hs3); [apply Hprim; simpl; auto|].
  destruct (Hsort (host E)) as (s4 & Hs4).
  step Hs1. step Hs2. step Hs3. step Hs4.
  unfold bind at 1. rewrite (fetchJSON_answers E body) by assumption.
  eexists. reflexivity.
Qed.

Lemma message_text_label (h : Host) (v : jsval) (m : string) :
  message_text v = Some m ->
  ToString h (or_else v (JStr "")) = Ok m /\
  ToString h (or_else (or_else v (JStr "")) (JStr "ERROR"))
  = Ok (if string_eqb m "" then "ERROR" else m).
Proof.
  destruct v as [| |b|n|s|l|p|fn fd]; simpl; try discriminate;
    try (intros [= <-]; split; reflexivity).
  intros [= <-]. unfold or_else. simpl.
  destruct (string_eqb s "") eqn:Hs; simpl.
  - apply String.eqb_eq in Hs. subst s. split; reflexivity.
  - rewrite Hs. simpl. split; reflexivity.
Qed.

Lemma detail_text_spec (h : Host) (v : jsval) :
  ToString h match v with
             | JStr _ => v
             | _ => match JSON_stringify h v with
                    | Some s => JStr s
                    | None => JUndefined
                    end
             end = Ok (detail_text h v).
Proof.
  unfold detail_text.
  destruct v; try reflexivity; destruct (JSON_stringify h _); reflexivity.
Qed.

(** C4, as the code has it.  With its credential set and plain options,
    the Etherscan adapter treats a parsed response [body] by three shapes
    in order.  (1) [result] is an array: its elements are normalised in
    order, one record each.  (2) Otherwise, [status] is ["1"] or [message]
    is ["OK"]: an absent or falsy [result] gives the empty list.
    (3) Otherwise the [message] (taken as empty when absent) decides: if
    it contains "no transactions" in any letter case the adapter returns
    the empty list, and if not it throws the error
    "Etherscan error (V2): <message or ERROR>: <detail>", the detail being
    [result] itself when a string and its JSON text otherwise. *)
Theorem fetchEtherscanTokenTransfers_shapes (E : env) (address : string)
        (options : options_arg) (body : jsval) (w : world) :
  configured (etherscanKey E) = true ->
  plain_options options = true ->
  answers E body ->
  exists req,
    (forall txs,
        get_opt body "result" = JArr txs ->
        fetchEtherscanTokenTransfers E address options w
        = mapM (fun tx => normalizeTokenTx E tx "etherscan") txs (sent req w) /\
        (forallb plain_tx txs = true ->
         exists rs w',
           fetchEtherscanTokenTransfers E address options w = (Ok rs, w') /\
           Forall2 (fun tx r => exists t d, r = tx_record "etherscan" tx t d)
                   txs rs)) /\
    (nullish body = false ->
     isArray (get_opt body "result") = false ->
     strict_eq_str (get_opt body "status") "1"
     || strict_eq_str (get_opt body "message") "OK" = true ->
     truthy (get_opt body "result") = false ->
     fetchEtherscanTokenTransfers E address options w = (Ok [], sent req w)) /\
    (nullish body = false ->
     isArray (get_opt body "result") = false ->
     strict_eq_str (get_opt body "status") "1"
     || strict_eq_str (get_opt body "message") "OK" = false ->
     forall m,
       message_text (get_opt body "message") = Some m ->
       fetchEtherscanTokenTransfers E address options w
       = (if no_transactions_test m then Ok []
          else Throw (Error ("Etherscan error (V2): "
                             ++ (if string_eqb m "" then "ERROR" else m)
                             ++ ": " ++ detail_text (host E) (get_opt body "result"))),
          sent req w)).
Proof.
  intros Hkey Hopt Hnet.
  destruct (fetchEtherscanTokenTransfers_answers E address options body w
              Hkey Hopt Hnet) as (req & ->).
  exists req. split; [|split].
  - intros txs Hres. unfold etherscan_parse. rewrite Hres.
    split; [reflexivity|]. intros Hplain.
    apply (mapM_Forall2 (fun tx => normalizeTokenTx E tx "etherscan") plain_tx
             (fun tx r => exists t d, r = tx_record "etherscan" tx t d));
      [|exact Hplain].
    intros tx w1 Htx.
    destruct (normalizeTokenTx_plain E tx "etherscan" w1 Htx)
      as (r & w' & Hrun & Hrec). eauto.
  - intros Hn Harr Hflag Hfalsy. unfold etherscan_parse, bind, lift.
    rewrite !(get_nonnullish body _ Hn), Hflag.
    unfold or_else. rewrite Hfalsy.
    destruct (get_opt body "result"); try discriminate; reflexivity.
  - intros Hn Harr Hflag m Hm. unfold etherscan_parse, bind, lift, throw, ret.
    rewrite !(get_nonnullish body _ Hn), Hflag.
    destruct (message_text_label (host E) _ m Hm) as (-> & ->).
    rewrite detail_text_spec.
    destruct (get_opt body "result"); try discriminate;
      destruct (no_transactions_test m); reflexivity.
Qed.

(** The specification's two scenarios: one record out of a legacy answer,
    and the empty list out of "No transactions found". *)
Lemma fetchEtherscanTokenTransfers_shapes_witness :
  (exists rs w',
      fetchEtherscanTokenTransfers (etherscan_env etherscan_body_sample) "0xabc"
        app_options w0 = (Ok rs, w') /\
      Forall2 (fun tx r => exists t d, r = tx_record "etherscan" tx t d)
              [etherscan_raw_sample] rs) /\
  (exists req,
      fetchEtherscanTokenTransfers (etherscan_env etherscan_body_empty) "0xabc"
        app_options w0 = (Ok [], sent req w0)).
Proof.
  split.
  - destruct (fetchEtherscanTokenTransfers_shapes
                (etherscan_env etherscan_body_sample) "0xabc" app_options
                etherscan_body_sample w0 eq_refl eq_refl
                (fun req => ex_intro _ _ (ex_intro _ _ eq_refl)))
      as (req & H1 & _ & _).
    exact (proj2 (H1 [etherscan_raw_sample] eq_refl) eq_refl).
  - destruct (fetchEtherscanTokenTransfers_shapes
                (etherscan_env etherscan_body_empty) "0xabc" app_options
                etherscan_body_empty w0 eq_refl eq_refl
                (fun req => ex_intro _ _ (ex_intro _ _ eq_refl)))
      as (req & _ & _ & H3).
    exists req.
    exact (H3 eq_refl eq_refl eq_refl "No transactions found" eq_refl).
Defined.

(** The record of the first scenario, computed. *)
Example fetchEtherscanTokenTransfers_scenario :
  fst (fetchEtherscanTokenTransfers (etherscan_env etherscan_body_sample) "0xabc"
         app_options w0)
  = Ok [ {| source := "etherscan"; hash := JStr "0xAA";
            time := Int 1700000000000;
            from := JStr "0x1"; to := JStr "0x2";
            tokenSymbol := JStr "USDT"; tokenName := JUndefined;
            contractAddress := JUndefined;
            value := JStr "1000000"; decimals := Int 6 |} ].
Proof. reflexivity. Qed.

(** C4 as stated fails: a message that is not "no transactions found" is
    not always an error.  The test looks for "No transactions" alone, so
    "No transactions yet" gives the empty list. *)
Lemma fetchEtherscanTokenTransfers_shapes_counterexample :
  search_ci "no transactions found" "No transactions yet" = false /\
  fst (fetchEtherscanTokenTransfers (etherscan_env etherscan_body_other_words)
         "0xabc" app_options w0) = Ok [].
Proof. split; reflexivity. Qed.

(** ** The orchestrator (C1, C2, C3) *)

Lemma fetchJSON_requests (E : env) (u : string)
      (i : option (list (string * string))) (w : world) :
  requests (snd (fetchJSON E u i w)) = (requests w ++ [{| url := u; init := i |}])%list.
Proof.
  unfold fetchJSON, fetch, bind, lift, throw.
  destruct (net E _) as [res|e]; [|reflexivity].
  destruct (ok res); simpl.
  - destruct (json res); reflexivity.
  - destruct (text res); reflexivity.
Qed.

Lemma covalent_flatten_quiet (E : env) (body : jsval) :
  quiet (covalent_flatten E body).
Proof.
  assert (Htr : forall item t, quiet (covalent_transfer E item t)).
  { intros item t w.
    destruct (nullish item) eqn:Hi.
    { rewrite covalent_transfer_nullish by auto. reflexivity. }
    destruct (nullish t) eqn:Ht.
    { rewrite covalent_transfer_nullish by auto. reflexivity. }
    rewrite covalent_transfer_run by assumption.
    apply normalizeTokenTx_quiet. }
  assert (Hit : forall item, quiet (covalent_item E item)).
  { intros item w. unfold covalent_item, bind, lift.
    destruct (get item "transfers") as [tr|e]; [|reflexivity].
    destruct (iterate (or_else tr (JArr []))) as [ts|e]; [|reflexivity].
    apply mapM_quiet. intros t. apply Htr. }
  intros w. unfold covalent_flatten, bind, lift, ret.
  destruct (iterate _) as [its|e]; [|reflexivity].
  pose proof (mapM_quiet (covalent_item E) Hit its w) as Hq.
  destruct (mapM (covalent_item E) its w) as [[rss|e] w1]; exact Hq.
Qed.

(** A Covalent attempt that succeeds has sent exactly one request, and
    that request carries the Covalent credential. *)
Lemma fetchCovalentTokenTransfers_requests (E : env) (address : string)
      (options : options_arg) (w w1 : world) (rs : list NormalizedTx) :
  fetchCovalentTokenTransfers E address options w = (Ok rs, w1) ->
  exists u, requests w1 = (requests w ++ [covalent_request E u])%list.
Proof.
  unfold fetchCovalentTokenTransfers.
  unfold bind at 1. unfold lift at 1.
  destruct (bind_options options) as [o|e]; [|discriminate].
  destruct (negb (configured (covalentKey E))); [discriminate|].
  unfold bind at 1. unfold lift at 1.
  destruct (ToString (host E) _) as [s1|e]; [|discriminate].
  unfold bind at 1. unfold lift at 1.
  destruct (ToString (host E) _) as [s2|e]; [|discriminate].
  unfold bind at 1.
  match goal with
  | |- context [fetchJSON E ?u ?i w] =>
      pose proof (fetchJSON_requests E u i w) as Hreq;
      destruct (fetchJSON E u i w) as [[body|e] w2]; [|discriminate];
      intros Hflat; exists u
  end.
  simpl in Hreq.
  pose proof (covalent_flatten_quiet E body w2) as Hq.
  rewrite Hflat in Hq. simpl in Hq. rewrite Hq. exact Hreq.
Qed.

(** C1, as the code has it.  The order is Primary first: whenever the
    Covalent credential is set, [fetchTokenTransfers] attempts the
    Covalent adapter first.  If that attempt succeeds its records are the
    result and the one request sent is the Covalent one.  If it fails and
    the Etherscan credential is set too, the Etherscan adapter is
    attempted next, in the world the failed attempt left, and its outcome,
    success or failure, is the final outcome; if it fails and the
    Etherscan credential is absent, the Covalent failure is rethrown.
    Etherscan is attempted first only when the Covalent credential is
    absent. *)
Theorem fetchTokenTransfers_primary_first (E : env) (address : string)
        (options : options_arg) (w : world) :
  (configured (covalentKey E) = true ->
   (forall rs w1,
       fetchCovalentTokenTransfers E address options w = (Ok rs, w1) ->
       fetchTokenTransfers E address options w = (Ok rs, w1) /\
       exists u, requests w1 = (requests w ++ [covalent_request E u])%list) /\
   (forall e w1,
       fetchCovalentTokenTransfers E address options w = (Throw e, w1) ->
       configured (etherscanKey E) = true ->
       fetchTokenTransfers E address options w
       = fetchEtherscanTokenTransfers E address options w1) /\
   (forall e w1,
       fetchCovalentTokenTransfers E address options w = (Throw e, w1) ->
       configured (etherscanKey E) = false ->
       fetchTokenTransfers E address options w = (Throw e, w1))) /\
  (configured (covalentKey E) = false ->
   configured (etherscanKey E) = true ->
   fetchTokenTransfers E address options w
   = fetchEtherscanTokenTransfers E address options w).
Proof.
  split.
  - intros Hc. unfold fetchTokenTransfers, try_catch. rewrite Hc.
    split; [|split].
    + intros rs w1 Hrun. split.
      * rewrite Hrun. reflexivity.
      * eapply fetchCovalentTokenTransfers_requests. exact Hrun.
    + intros e w1 Hrun He. rewrite Hrun, He. reflexivity.
    + intros e w1 Hrun He. rewrite Hrun, He. reflexivity.
  - intros Hc He. unfold fetchTokenTransfers. rewrite Hc, He. reflexivity.
Qed.

(** Both credentials set and both providers failing: the Covalent 401
    comes first and the Etherscan outcome is the final one. *)
Lemma fetchTokenTransfers_primary_first_witness :
  fetchTokenTransfers (sample_env (Some "EK") (Some "CK") both_down) "0xabc"
    app_options w0
  = fetchEtherscanTokenTransfers (sample_env (Some "EK") (Some "CK") both_down)
      "0xabc" app_options
      (snd (fetchCovalentTokenTransfers
              (sample_env (Some "EK") (Some "CK") both_down) "0xabc" app_options w0)).
Proof.
  apply (proj1 (proj2 (proj1 (fetchTokenTransfers_primary_first
           (sample_env (Some "EK") (Some "CK") both_down) "0xabc" app_options w0)
           eq_refl)) (Error "HTTP 401: bad key")).
  - reflexivity.
  - reflexivity.
Defined.

(** C1 as stated fails.  With both credentials set and both providers
    failing, the Etherscan attempt on its own fails, yet the result is not
    what the Covalent adapter produces: it is the Etherscan failure, and
    the first request sent is the Covalent one.  With both providers
    answering, Etherscan is never contacted.  The orchestrator differs
    from the one the specification words. *)
Lemma fetchTokenTransfers_primary_first_counterexample :
  configured (etherscanKey (sample_env (Some "EK") (Some "CK") both_down)) = true /\
  configured (covalentKey (sample_env (Some "EK") (Some "CK") both_down)) = true /\
  fst (fetchEtherscanTokenTransfers (sample_env (Some "EK") (Some "CK") both_down)
         "0xabc" app_options w0) = Throw (Error "HTTP 500: down") /\
  fst (fetchCovalentTokenTransfers (sample_env (Some "EK") (Some "CK") both_down)
         "0xabc" app_options w0) = Throw (Error "HTTP 401: bad key") /\
  fst (fetchTokenTransfers (sample_env (Some "EK") (Some "CK") both_down)
         "0xabc" app_options w0) = Throw (Error "HTTP 500: down") /\
  fst (fetchTokenTransfers (sample_env (Some "EK") (Some "CK") both_down)
         "0xabc" app_options w0)
  <> fst (fetchCovalentTokenTransfers (sample_env (Some "EK") (Some "CK") both_down)
            "0xabc" app_options w0) /\
  map init (requests (snd (fetchTokenTransfers
                             (sample_env (Some "EK") (Some "CK") both_down)
                             "0xabc" app_options w0)))
  = [Some [("Authorization", "Bearer CK")]; None] /\
  map init (requests (snd (fetchTokenTransfers
                             (sample_env (Some "EK") (Some "CK") both_up)
                             "0xabc" app_options w0)))
  = [Some [("Authorization", "Bearer CK")]] /\
  fetchTokenTransfers (sample_env (Some "EK") (Some "CK") both_down)
    "0xabc" app_options w0
  <> fetchTokenTransfers_as_specified (sample_env (Some "EK") (Some "CK") both_down)
       "0xabc" app_options w0.
Proof.
  repeat split; try reflexivity.
  - vm_compute. discriminate.
  - vm_compute. discriminate.
Qed.

(** C2.  With the Etherscan credential set and the Covalent credential
    absent, a failure of the Etherscan adapter is the failure of
    [fetchTokenTransfers]: the same exception, in the same world. *)
Theorem fetchTokenTransfers_secondary_failure (E : env) (address : string)
        (options : options_arg) (w w' : world) (e : exn) :
  configured (etherscanKey E) = true ->
  configured (covalentKey E) = false ->
  fetchEtherscanTokenTransfers E address options w = (Throw e, w') ->
  fetchTokenTransfers E address options w = (Throw e, w').
Proof.
  intros He Hc Hrun. unfold fetchTokenTransfers. rewrite Hc, He. exact Hrun.
Qed.

(** Etherscan answering with a 500 and no Covalent credential. *)
Lemma fetchTokenTransfers_secondary_failure_witness :
  fetchTokenTransfers (sample_env (Some "EK") None both_down) "0xabc" app_options w0
  = (Throw (Error "HTTP 500: down"),
     snd (fetchEtherscanTokenTransfers (sample_env (Some "EK") None both_down)
            "0xabc" app_options w0)).
Proof.
  apply (fetchTokenTransfers_secondary_failure
           (sample_env (Some "EK") None both_down) "0xabc" app_options w0).
  - reflexivity.
  - reflexivity.
  - reflexivity.
Defined.

(** C3.  With neither credential set, [fetchTokenTransfers] returns the
    empty list, not an exception, and leaves the world as it was: no
    request is sent. *)
Theorem fetchTokenTransfers_no_credentials (E : env) (address : string)
        (options : options_arg) (w : world) :
  configured (etherscanKey E) = false ->
  configured (covalentKey E) = false ->
  fetchTokenTransfers E address options w = (Ok [], w) /\
  requests (snd (fetchTokenTransfers E address options w)) = requests w.
Proof.
  intros He Hc. unfold fetchTokenTransfers, ret. rewrite Hc, He. auto.
Qed.

(** No credential at all, and an empty credential, which counts as none. *)
Lemma fetchTokenTransfers_no_credentials_witness :
  fetchTokenTransfers (sample_env None (Some "") both_up) "0xabc" JUndefined w0 = (Ok [], w0) /\
  requests (snd (fetchTokenTransfers (sample_env None (Some "") both_up) "0xabc"
                   JUndefined w0)) = requests w0.
Proof.
  apply (fetchTokenTransfers_no_credentials (sample_env None (Some "") both_up)
           "0xabc" JUndefined w0); reflexivity.
Defined.

(** ** The transport and the credentials *)

Lemma etherscan_parse_quiet (E : env) (body : jsval) :
  quiet (etherscan_parse E body).
Proof.
  assert (Hmap : forall txs w,
             requests (snd (mapM (fun tx => normalizeTokenTx E tx "etherscan") txs w))
             = requests w).
  { intros txs. apply mapM_quiet. intros tx. apply normalizeTokenTx_quiet. }
  intros w. unfold etherscan_parse.
  destruct (get_opt body "result") as [| |b|n|s|txs|ps|fn fd] eqn:Hres; try apply Hmap;
    unfold bind, lift, throw, ret;
    (destruct (get body "status") as [st|e]; [|reflexivity]);
    (destruct (get body "message") as [ms|e]; [|reflexivity]);
    (destruct (strict_eq_str st "1" || strict_eq_str ms "OK")).
  all: try (destruct (ToString (host E) _); [|reflexivity];
            destruct (no_transactions_test _); [reflexivity|];
            destruct (ToString (host E) _); [|reflexivity];
            destruct (ToString (host E) _); reflexivity).
  all: unfold or_else; cbn [truthy]; try reflexivity.
  all: match goal with
       | |- context [if ?c then _ else _] => destruct c
       end; reflexivity.
Qed.

(** What one call of [fetchJSON] comes to, read off the network's answer:
    the parsed content, or the exception thrown. *)
Lemma fetchJSON_run (E : env) (u : string)
      (i : option (list (string * string))) (w : world) :
  fetchJSON E u i w =
  (match net E {| url := u; init := i |} with
   | Throw e => Throw e
   | Ok res =>
       if ok res then json res
       else match text res with
            | Ok t => Throw (Error ("HTTP " ++ NumberToString (host E) (status res)
                                            ++ ": " ++ t))
            | Throw e => Throw e
            end
   end,
   sent {| url := u; init := i |} w).
Proof.
  unfold fetchJSON, fetch, bind, lift, throw, sent.
  destruct (net E _) as [res|e]; [|reflexivity].
  destruct (ok res); simpl; [reflexivity|].
  destruct (text res); reflexivity.
Qed.

(** X6.  [fetchJSON] sends exactly one request whatever comes back, reads
    no clock, and returns parsed content only from an answer with a
    success status: it returns [v] exactly when the network answered the
    request with [ok] and a body that parses to [v].  An answer without
    [ok] is the error "HTTP <status>: <body text>". *)
Theorem fetchJSON_contract (E : env) (u : string)
        (i : option (list (string * string))) (w : world) :
  snd (fetchJSON E u i w) = sent {| url := u; init := i |} w /\
  (forall v, fst (fetchJSON E u i w) = Ok v <->
             exists res, net E {| url := u; init := i |} = Ok res /\
                         ok res = true /\ json res = Ok v) /\
  (forall res t, net E {| url := u; init := i |} = Ok res ->
                 ok res = false -> text res = Ok t ->
                 fst (fetchJSON E u i w)
                 = Throw (Error ("HTTP " ++ NumberToString (host E) (status res)
                                         ++ ": " ++ t))).
Proof.
  rewrite fetchJSON_run. cbn [fst snd]. split; [reflexivity|]. split.
  - intros v. split.
    + destruct (net E _) as [res|e]; [|discriminate].
      destruct (ok res) eqn:Hok.
      * intros Hj. exists res. auto.
      * destruct (text res); discriminate.
    + intros (res & -> & -> & ->). reflexivity.
  - intros res t -> -> ->. reflexivity.
Qed.

Lemma fetchJSON_contract_witness :
  fst (fetchJSON (sample_env (Some "EK") None both_down) "https://x" None w0)
  = Throw (Error "HTTP 500: down").
Proof.
  apply (proj2 (proj2 (fetchJSON_contract (sample_env (Some "EK") None both_down)
                         "https://x" None w0))
           {| ok := false; status := 500; text := Ok "down";
              json := Throw (Rejected "body") |} "down");
    reflexivity.
Defined.

(** X1.  An adapter whose credential is missing, or set to the empty
    string, never sends a request, never reads the clock and never
    returns a list, whatever the address and the network.  It ends with
    its configuration error for every options argument but [null], the
    values of the options not being looked at; for [null] the parameter
    binding fails first and the outcome is the language's TypeError. *)
Theorem adapters_missing_key (E : env) (address : string) (options : options_arg)
        (w : world) :
  (configured (etherscanKey E) = false ->
   fetchEtherscanTokenTransfers E address options w
   = (Throw match options with
            | JNull => TypeError
            | _ => Error "Missing REACT_APP_ETHERSCAN_KEY"
            end, w)) /\
  (configured (covalentKey E) = false ->
   fetchCovalentTokenTransfers E address options w
   = (Throw match options with
            | JNull => TypeError
            | _ => Error "Missing REACT_APP_COVALENT_KEY"
            end, w)).
Proof.
  split; intros Hk.
  - unfold fetchEtherscanTokenTransfers, bind, lift, throw. rewrite Hk.
    destruct options; reflexivity.
  - unfold fetchCovalentTokenTransfers, bind, lift, throw. rewrite Hk.
    destruct options; reflexivity.
Qed.

Lemma adapters_missing_key_witness :
  fetchEtherscanTokenTransfers (sample_env (Some "") (Some "CK") both_up) "0xabc"
    (JObj [("sort", JObj [])]) w0
  = (Throw (Error "Missing REACT_APP_ETHERSCAN_KEY"), w0) /\
  fetchCovalentTokenTransfers (sample_env (Some "EK") None both_up) "0xabc"
    JNull w0
  = (Throw TypeError, w0).
Proof.
  split.
  - apply (proj1 (adapters_missing_key (sample_env (Some "") (Some "CK") both_up)
                    "0xabc" (JObj [("sort", JObj [])]) w0)). reflexivity.
  - apply (proj2 (adapters_missing_key (sample_env (Some "EK") None both_up)
                    "0xabc" JNull w0)). reflexivity.
Defined.

(** The request the Etherscan adapter sends to [u]: one without headers. *)
Lemma fetchEtherscanTokenTransfers_log (E : env) (address : string)
      (options : options_arg) (w : world) :
  exists l,
    requests (snd (fetchEtherscanTokenTransfers E address options w))
    = (requests w ++ l)%list /\
    (l = [] \/ exists u, l = [{| url := u; init := None |}]).
Proof.
  unfold fetchEtherscanTokenTransfers.
  unfold bind at 1. unfold lift at 1.
  destruct (bind_options options) as [o|e].
  2: { exists []. rewrite app_nil_r. auto. }
  destruct (negb (configured (etherscanKey E))).
  { exists []. rewrite app_nil_r. auto. }
  unfold bind at 1. unfold lift at 1.
  destruct (ToString (host E) _) as [s1|e].
  2: { exists []. rewrite app_nil_r. auto. }
  unfold bind at 1. unfold lift at 1.
  destruct (ToString (host E) _) as [s2|e].
  2: { exists []. rewrite app_nil_r. auto. }
  unfold bind at 1. unfold lift at 1.
  destruct (ToString (host E) _) as [s3|e].
  2: { exists []. rewrite app_nil_r. auto. }
  unfold bind at 1. unfold lift at 1.
  destruct (sort_text (host E) o) as [s4|e].
  2: { exists []. rewrite app_nil_r. auto. }
  unfold bind at 1. rewrite fetchJSON_run.
  match goal with
  | |- context [sent ?r w] => exists [r]; split; [|right; eexists; reflexivity]
  end.
  match goal with
  | |- context [match ?x with Ok _ => _ | Throw _ => _ end] =>
      destruct x as [body|e]
  end.
  - rewrite (etherscan_parse_quiet E body). reflexivity.
  - reflexivity.
Qed.

Lemma fetchCovalentTokenTransfers_log (E : env) (address : string)
      (options : options_arg) (w : world) :
  exists l,
    requests (snd (fetchCovalentTokenTransfers E address options w))
    = (requests w ++ l)%list /\
    (l = [] \/ exists u, l = [covalent_request E u]).
Proof.
  unfold fetchCovalentTokenTransfers.
  unfold bind at 1. unfold lift at 1.
  destruct (bind_options options) as [o|e].
  2: { exists []. rewrite app_nil_r. auto. }
  destruct (negb (configured (covalentKey E))).
  { exists []. rewrite app_nil_r. auto. }
  unfold bind at 1. unfold lift at 1.
  destruct (ToString (host E) _) as [s1|e].
  2: { exists []. rewrite app_nil_r. auto. }
  unfold bind at 1. unfold lift at 1.
  destruct (ToString (host E) _) as [s2|e].
  2: { exists []. rewrite app_nil_r. auto. }
  unfold bind at 1. rewrite fetchJSON_run.
  match goal with
  | |- context [sent {| url := ?u; init := _ |} w] =>
      exists [covalent_request E u]; split; [|right; eexists; reflexivity]
  end.
  match goal with
  | |- context [match ?x with Ok _ => _ | Throw _ => _ end] =>
      destruct x as [body|e]
  end.
  - rewrite (covalent_flatten_quiet E body). reflexivity.
  - reflexivity.
Qed.

(** With the credential set and plain options an adapter does send. *)
Lemma fetchEtherscanTokenTransfers_sends (E : env) (address : string)
      (options : options_arg) (w : world) :
  configured (etherscanKey E) = true ->
  plain_options options = true ->
  exists u,
    requests (snd (fetchEtherscanTokenTransfers E address options w))
    = (requests w ++ [{| url := u; init := None |}])%list.
Proof.
  intros Hkey Hopt.
  destruct (plain_options_param options Hopt) as (o & Hb & Hprim & Hsort).
  unfold fetchEtherscanTokenTransfers. step Hb. rewrite Hkey. cbn [negb].
  destruct (ToString_primitive (host E) (param o "chainId" (JNum 1)))
    as (s1 & Hs1); [apply Hprim; simpl; auto|].
  destruct (ToString_primitive (host E) (param o "page" (JNum 1)))
    as (s2 & Hs2); [apply Hprim; simpl; auto|].
  destruct (ToString_primitive (host E) (param o "offset" (JNum 50)))
    as (s3 & Hs3); [apply Hprim; simpl; auto|].
  destruct (Hsort (host E)) as (s4 & Hs4).
  step Hs1. step Hs2. step Hs3. step Hs4.
  unfold bind at 1. rewrite fetchJSON_run.
  eexists.
  match goal with
  | |- context [match ?x with Ok _ => _ | Throw _ => _ end] =>
      destruct x as [body|e]
  end.
  - rewrite (etherscan_parse_quiet E body). reflexivity.
  - reflexivity.
Qed.

Lemma fetchCovalentTokenTransfers_sends (E : env) (address : string)
      (options : options_arg) (w : world) :
  configured (covalentKey E) = true ->
  plain_options options = true ->
  exists u,
    requests (snd (fetchCovalentTokenTransfers E address options w))
    = (requests w ++ [covalent_request E u])%list.
Proof.
  intros Hkey Hopt.
  destruct (plain_options_param options Hopt) as (o & Hb & Hprim & _).
  unfold fetchCovalentTokenTransfers. step Hb. rewrite Hkey. cbn [negb].
  destruct (ToString_primitive (host E) (param o "chainId" (JNum 1)))
    as (s1 & Hs1); [apply Hprim; simpl; auto|].
  destruct (ToString_primitive (host E) (param o "pageSize" (JNum 50)))
    as (s2 & Hs2); [apply Hprim; simpl; auto 6|].
  step Hs1. step Hs2.
  unfold bind at 1. rewrite fetchJSON_run.
  eexists.
  match goal with
  | |- context [match ?x with Ok _ => _ | Throw _ => _ end] =>
      destruct x as [body|e]
  end.
  - rewrite (covalent_flatten_quiet E body). reflexivity.
  - reflexivity.
Qed.

(** What one call of [fetchTokenTransfers] appends to the request log. *)
Lemma fetchTokenTransfers_appends (E : env) (address : string)
        (options : options_arg) (w : world) :
  exists l,
    requests (snd (fetchTokenTransfers E address options w))
    = (requests w ++ l)%list /\
    (l = [] \/
     (exists u, l = [covalent_request E u]) \/
     (exists u, l = [{| url := u; init := None |}]) \/
     (exists u1 u2, l = [covalent_request E u1; {| url := u2; init := None |}])).
Proof.
  unfold fetchTokenTransfers, try_catch.
  destruct (configured (covalentKey E)).
  - destruct (fetchCovalentTokenTransfers_log E address options w)
      as (l1 & Hl1 & Hs1).
    destruct (fetchCovalentTokenTransfers E address options w)
      as [[rs|e] w1]; cbn [snd] in Hl1 |- *.
    + exists l1. split; [exact Hl1|]. destruct Hs1 as [->|Hs1]; auto.
    + destruct (configured (etherscanKey E)).
      * destruct (fetchEtherscanTokenTransfers_log E address options w1)
          as (l2 & Hl2 & Hs2).
        exists (l1 ++ l2)%list. rewrite Hl2, Hl1, app_assoc.
        split; [reflexivity|].
        destruct Hs1 as [->|(u1 & ->)], Hs2 as [->|(u2 & ->)]; simpl; eauto 8.
      * exists l1. split; [exact Hl1|]. destruct Hs1 as [->|Hs1]; auto.
  - destruct (configured (etherscanKey E)).
    + destruct (fetchEtherscanTokenTransfers_log E address options w)
        as (l & Hl & Hs).
      exists l. split; [exact Hl|]. destruct Hs as [->|Hs]; auto.
    + exists []. rewrite app_nil_r. auto.
Qed.

(** X3.  Whatever the configuration, the options and the network, one
    call of [fetchTokenTransfers] only appends to the request log, and
    what it appends is nothing, one Covalent request, one Etherscan
    request, or a Covalent request followed by an Etherscan one: never
    more than one request per provider, and never Etherscan before
    Covalent. *)
Theorem fetchTokenTransfers_request_bound (E : env) (address : string)
        (options : options_arg) (w : world) :
  exists l,
    requests (snd (fetchTokenTransfers E address options w))
    = (requests w ++ l)%list /\
    (l = [] \/
     (exists u, l = [covalent_request E u]) \/
     (exists u, l = [{| url := u; init := None |}]) \/
     (exists u1 u2, l = [covalent_request E u1; {| url := u2; init := None |}])).
Proof. apply fetchTokenTransfers_appends. Qed.

(** X2.  A transport failure passes through an adapter as it is.  With
    plain options, if every call of [fetchJSON] throws [e] (a rejected
    request, an answer without a success status, a body that does not
    parse), an adapter whose credential is set throws that same [e] after
    sending exactly one request, and reads no clock. *)
Theorem adapters_transport_failure (E : env) (address : string)
        (options : options_arg) (w : world) (e : exn) :
  plain_options options = true ->
  (forall u i w1, fst (fetchJSON E u i w1) = Throw e) ->
  (configured (etherscanKey E) = true ->
   exists u, fetchEtherscanTokenTransfers E address options w
             = (Throw e, sent {| url := u; init := None |} w)) /\
  (configured (covalentKey E) = true ->
   exists u, fetchCovalentTokenTransfers E address options w
             = (Throw e, sent (covalent_request E u) w)).
Proof.
  intros Hopt Hfail.
  destruct (plain_options_param options Hopt) as (o & Hb & Hprim & Hsort).
  assert (Hrun : forall u i, fetchJSON E u i w
                             = (Throw e, sent {| url := u; init := i |} w)).
  { intros u i. specialize (Hfail u i w). rewrite fetchJSON_run in Hfail |- *.
    cbn [fst] in Hfail. rewrite Hfail. reflexivity. }
  split; intros Hkey.
  - unfold fetchEtherscanTokenTransfers. step Hb. rewrite Hkey. cbn [negb].
    destruct (ToString_primitive (host E) (param o "chainId" (JNum 1)))
      as (s1 & Hs1); [apply Hprim; simpl; auto|].
    destruct (ToString_primitive (host E) (param o "page" (JNum 1)))
      as (s2 & Hs2); [apply Hprim; simpl; auto|].
    destruct (ToString_primitive (host E) (param o "offset" (JNum 50)))
      as (s3 & Hs3); [apply Hprim; simpl; auto|].
    destruct (Hsort (host E)) as (s4 & Hs4).
    step Hs1. step Hs2. step Hs3. step Hs4.
    unfold bind at 1. rewrite Hrun. eexists. reflexivity.
  - unfold fetchCovalentTokenTransfers. step Hb. rewrite Hkey. cbn [negb].
    destruct (ToString_primitive (host E) (param o "chainId" (JNum 1)))
      as (s1 & Hs1); [apply Hprim; simpl; auto|].
    destruct (ToString_primitive (host E) (param o "pageSize" (JNum 50)))
      as (s2 & Hs2); [apply Hprim; simpl; auto 6|].
    step Hs1. step Hs2.
    unfold bind at 1. rewrite Hrun. eexists. reflexivity.
Qed.

Lemma adapters_transport_failure_witness :
  exists u,
    fetchCovalentTokenTransfers
      (sample_env None (Some "CK") (fun _ => http_fail 503 "busy")) "0xabc"
      app_options w0
    = (Throw (Error "HTTP 503: busy"),
       sent (covalent_request
               (sample_env None (Some "CK") (fun _ => http_fail 503 "busy")) u) w0).
Proof.
  apply (proj2 (adapters_transport_failure
                  (sample_env None (Some "CK") (fun _ => http_fail 503 "busy"))
                  "0xabc" app_options w0 (Error "HTTP 503: busy")
                  eq_refl (fun u i w1 => eq_refl))).
  reflexivity.
Defined.

(** ** The provider tag *)

Lemma mapM_Forall_out {A B} (f : A -> M B) (P : B -> Prop) :
  (forall a w b w', f a w = (Ok b, w') -> P b) ->
  forall l w bs w', mapM f l w = (Ok bs, w') -> Forall P bs.
Proof.
  intros Hf. induction l as [|a l IH]; intros w bs w' H.
  - injection H as <- _. constructor.
  - simpl in H. unfold bind, ret in H.
    destruct (f a w) as [[b|e] w1] eqn:Ha; [|discriminate].
    destruct (mapM f l w1) as [[bs1|e] w2] eqn:Hl; [|discriminate].
    injection H as <- _. constructor; [eapply Hf|eapply IH]; eassumption.
Qed.

Lemma normalizeTokenTx_source (E : env) (tx : jsval) (src : string)
      (w w' : world) (r : NormalizedTx) :
  normalizeTokenTx E tx src w = (Ok r, w') -> source r = src.
Proof.
  intros H. apply normalizeTokenTx_ok_inv in H as (_ & t & d & _ & _ & ->).
  reflexivity.
Qed.

Lemma fetchEtherscanTokenTransfers_source (E : env) (address : string)
      (options : options_arg) (w w' : world) (rs : list NormalizedTx) :
  fetchEtherscanTokenTransfers E address options w = (Ok rs, w') ->
  Forall (fun r => source r = "etherscan") rs.
Proof.
  assert (Hmap : forall txs w1 rs1 w2,
             mapM (fun tx => normalizeTokenTx E tx "etherscan") txs w1 = (Ok rs1, w2) ->
             Forall (fun r => source r = "etherscan") rs1).
  { apply mapM_Forall_out. intros tx w1 r w2. apply normalizeTokenTx_source. }
  assert (Hparse : forall body w1 rs1 w2,
             etherscan_parse E body w1 = (Ok rs1, w2) ->
             Forall (fun r => source r = "etherscan") rs1).
  { intros body w1 rs1 w2. unfold etherscan_parse.
    destruct (get_opt body "result") as [| |b|n|s|txs|ps|fn fd]; try apply Hmap;
      unfold bind, lift, throw, ret;
      (destruct (get body "status") as [st|e]; [|discriminate]);
      (destruct (get body "message") as [ms|e]; [|discriminate]);
      (destruct (strict_eq_str st "1" || strict_eq_str ms "OK")).
    all: try (destruct (ToString (host E) _); [|discriminate];
              destruct (no_transactions_test _);
              [ intros [= <- _]; constructor |];
              destruct (ToString (host E) _); [|discriminate];
              destruct (ToString (host E) _); discriminate).
    all: unfold or_else; cbn [truthy]; try apply Hmap; try discriminate.
    all: match goal with
         | |- context [if ?c then _ else _] => destruct c
         end; try apply Hmap; discriminate. }
  unfold fetchEtherscanTokenTransfers.
  unfold bind at 1. unfold lift at 1.
  destruct (bind_options options) as [o|e]; [|discriminate].
  destruct (negb (configured (etherscanKey E))); [discriminate|].
  unfold bind at 1. unfold lift at 1.
  destruct (ToString (host E) _) as [s1|e]; [|discriminate].
  unfold bind at 1. unfold lift at 1.
  destruct (ToString (host E) _) as [s2|e]; [|discriminate].
  unfold bind at 1. unfold lift at 1.
  destruct (ToString (host E) _) as [s3|e]; [|discriminate].
  unfold bind at 1. unfold lift at 1.
  destruct (sort_text (host E) o) as [s4|e]; [|discriminate].
  unfold bind at 1.
  destruct (fetchJSON E _ None w) as [[body|e] w1]; [|discriminate].
  apply Hparse.
Qed.

Lemma fetchCovalentTokenTransfers_source (E : env) (address : string)
      (options : options_arg) (w w' : world) (rs : list NormalizedTx) :
  fetchCovalentTokenTransfers E address options w = (Ok rs, w') ->
  Forall (fun r => source r = "covalent") rs.
Proof.
  assert (Htr : forall item t w1 r w2,
             covalent_transfer E item t w1 = (Ok r, w2) -> source r = "covalent").
  { intros item t w1 r w2 H.
    destruct (nullish item) eqn:Hi.
    { rewrite covalent_transfer_nullish in H by auto. discriminate. }
    destruct (nullish t) eqn:Ht.
    { rewrite covalent_transfer_nullish in H by auto. discriminate. }
    rewrite covalent_transfer_run in H by assumption.
    eapply normalizeTokenTx_source. exact H. }
  assert (Hit : forall item w1 rs1 w2,
             covalent_item E item w1 = (Ok rs1, w2) ->
             Forall (fun r => source r = "covalent") rs1).
  { intros item w1 rs1 w2. unfold covalent_item, bind, lift.
    destruct (get item "transfers") as [tr|e]; [|discriminate].
    destruct (iterate (or_else tr (JArr []))) as [ts|e]; [|discriminate].
    apply mapM_Forall_out. intros t. apply Htr. }
  assert (Hflat : forall body w1 rs1 w2,
             covalent_flatten E body w1 = (Ok rs1, w2) ->
             Forall (fun r => source r = "covalent") rs1).
  { intros body w1 rs1 w2. unfold covalent_flatten, bind, lift, ret.
    destruct (iterate _) as [its|e]; [|discriminate].
    destruct (mapM (covalent_item E) its w1) as [[rss|e] w3] eqn:Hm; [|discriminate].
    intros [= <- _].
    pose proof (mapM_Forall_out (covalent_item E)
                  (Forall (fun r => source r = "covalent")) Hit its w1 rss w3 Hm)
      as Hall.
    clear Hm. induction Hall; simpl; [constructor|].
    apply Forall_app. auto. }
  unfold fetchCovalentTokenTransfers.
  unfold bind at 1. unfold lift at 1.
  destruct (bind_options options) as [o|e]; [|discriminate].
  destruct (negb (configured (covalentKey E))); [discriminate|].
  unfold bind at 1. unfold lift at 1.
  destruct (ToString (host E) _) as [s1|e]; [|discriminate].
  unfold bind at 1. unfold lift at 1.
  destruct (ToString (host E) _) as [s2|e]; [|discriminate].
  unfold bind at 1.
  destruct (fetchJSON E _ _ w) as [[body|e] w1]; [|discriminate].
  apply Hflat.
Qed.

(** X4.  The records of one result of [fetchTokenTransfers] all come
    from one provider: either every record is tagged "covalent" or every
    record is tagged "etherscan".  Results of the two providers are never
    mixed, and no record carries any other tag. *)
Theorem fetchTokenTransfers_single_source (E : env) (address : string)
        (options : options_arg) (w w' : world) (rs : list NormalizedTx) :
  fetchTokenTransfers E address options w = (Ok rs, w') ->
  Forall (fun r => source r = "covalent") rs \/
  Forall (fun r => source r = "etherscan") rs.
Proof.
  unfold fetchTokenTransfers, try_catch, throw, ret.
  destruct (configured (covalentKey E)).
  - destruct (fetchCovalentTokenTransfers E address options w)
      as [[rs1|e] w1] eqn:Hc.
    + intros [= <- _]. left. eapply fetchCovalentTokenTransfers_source. exact Hc.
    + destruct (configured (etherscanKey E)); [|discriminate].
      intros He. right. eapply fetchEtherscanTokenTransfers_source. exact He.
  - destruct (configured (etherscanKey E)).
    + intros He. right. eapply fetchEtherscanTokenTransfers_source. exact He.
    + intros [= <- _]. left. constructor.
Qed.

Lemma fetchTokenTransfers_single_source_witness :
  Forall (fun r => source r = "covalent")
         (match fst (fetchTokenTransfers (sample_env (Some "EK") (Some "CK") both_up)
                       "0xabc" app_options w0) with
          | Ok rs => rs
          | Throw _ => []
          end) \/
  Forall (fun r => source r = "etherscan")
         (match fst (fetchTokenTransfers (sample_env (Some "EK") (Some "CK") both_up)
                       "0xabc" app_options w0) with
          | Ok rs => rs
          | Throw _ => []
          end).
Proof.
  apply (fetchTokenTransfers_single_source
           (sample_env (Some "EK") (Some "CK") both_up) "0xabc" app_options w0
           (snd (fetchTokenTransfers (sample_env (Some "EK") (Some "CK") both_up)
                   "0xabc" app_options w0))).
  reflexivity.
Defined.

(** ** The configuration hint *)

(** X5.  [hasAnyApiKey] tells whether a fetch can reach the network.
    When it is false, [fetchTokenTransfers] returns the empty list and
    sends nothing; when it is true, a call with plain options sends at
    least one request.  So, for plain options, the request log stays as it
    was exactly when [hasAnyApiKey] is false. *)
Theorem hasAnyApiKey_reaches_network (E : env) (address : string)
        (options : options_arg) (w : world) :
  plain_options options = true ->
  (hasAnyApiKey E = false ->
   fetchTokenTransfers E address options w = (Ok [], w)) /\
  (hasAnyApiKey E = false <->
   requests (snd (fetchTokenTransfers E address options w)) = requests w).
Proof.
  intros Hopt.
  assert (Hgrow : forall (l0 : list request) r l, (l0 ++ r :: l)%list <> l0).
  { intros l0 r l H. apply (f_equal (@List.length request)) in H.
    rewrite length_app in H. simpl in H. lia. }
  unfold hasAnyApiKey, fetchTokenTransfers, try_catch, throw, ret.
  destruct (configured (covalentKey E)) eqn:Hc.
  - split; [discriminate|]. split; [discriminate|]. intros Hsame. exfalso.
    destruct (fetchCovalentTokenTransfers_sends E address options w Hc Hopt)
      as (u & Hsend).
    destruct (fetchCovalentTokenTransfers E address options w)
      as [[rs|e] w1]; cbn [snd] in Hsend, Hsame.
    + rewrite Hsend in Hsame. exact (Hgrow _ _ _ Hsame).
    + destruct (configured (etherscanKey E)) eqn:He; cbn [snd] in Hsame.
      * destruct (fetchEtherscanTokenTransfers_log E address options w1)
          as (l & Hl & _).
        rewrite Hl, Hsend, <- app_assoc in Hsame. simpl in Hsame.
        exact (Hgrow _ _ _ Hsame).
      * rewrite Hsend in Hsame. exact (Hgrow _ _ _ Hsame).
  - destruct (configured (etherscanKey E)) eqn:He; cbn [orb].
    + split; [discriminate|]. split; [discriminate|]. intros Hsame. exfalso.
      destruct (fetchEtherscanTokenTransfers_sends E address options w He Hopt)
        as (u & Hsend).
      rewrite Hsend in Hsame. exact (Hgrow _ _ _ Hsame).
    + split; [reflexivity|]. split; reflexivity.
Qed.

Lemma hasAnyApiKey_reaches_network_witness :
  fetchTokenTransfers (sample_env None None both_up) "0xabc" app_options w0
  = (Ok [], w0).
Proof.
  apply (proj1 (hasAnyApiKey_reaches_network (sample_env None None both_up)
                  "0xabc" app_options w0 eq_refl)).
  reflexivity.
Defined.

(** ** Amounts: [formatAmount] *)

















(** With a count of 1.5, which [Number("1.5")] yields, padding and
    slicing drop the fraction of the count and a digit of the amount goes:
    [formatAmount('123', 1.5)] is ['1.3']. *)
Example formatAmount_fraction_sample :
  formatAmount sample_limit sample_host (JStr "123") (Frac 3 2) = Ok "1.3".
Proof. reflexivity. Qed.

(** A raw record whose count is the string "1.5" and whose time stamp is
    the number 1.5: the count stays 1.5 and the time is 1500 ms. *)
Example fractional_fields_sample :
  exists r w',
    normalizeTokenTx offline_env
      (JObj [("value", JStr "123"); ("tokenDecimal", JStr "1.5");
             ("timeStamp", JFrac 3 2)]) "etherscan" w0 = (Ok r, w') /\
    decimals r = Frac 3 2 /\ time r = Int 1500 /\
    formatAmount sample_limit sample_host (value r) (decimals r) = Ok "1.3".
Proof. eexists _, _. split; [reflexivity|]. repeat split. Qed.




(** X9.  [formatAmount] at its edges.  A raw value that is absent or
    falsy prints as "0".  A primitive raw value never makes it throw,
    whatever the decimal count.  And when the count asks for padding
    beyond what the engine builds, the exception is caught and the raw
    text comes back unformatted; a whole count [d] asks for that much
    whenever [d + 1] exceeds the engine's limit, the limit being below
    2^53 - 1. *)
Theorem formatAmount_edges (limit : Z) (h : Host) (raw : jsval)
        (decimals : number) :
  (truthy raw = false -> formatAmount limit h raw decimals = Ok "0") /\
  (primitive raw = true -> exists t, formatAmount limit h raw decimals = Ok t) /\
  (forall text,
      truthy raw = true -> ToString h raw = Ok text ->
      limit < pad_target h decimals ->
      Z.of_nat (List.length (remove_first_dash (list_ascii_of_string text)))
      <= limit ->
      formatAmount limit h raw decimals = Ok text) /\
  (forall d, effective_decimals decimals = Int d ->
             limit < d + 1 -> limit < 2 ^ 53 - 1 -> limit < pad_target h decimals).
Proof.
  split; [|split; [|split]].
  - intros Hf. unfold formatAmount. rewrite Hf. reflexivity.
  - intros Hp. unfold formatAmount.
    destruct (negb (truthy raw)); [eauto|].
    destruct (ToString_primitive h raw Hp) as (text & ->).
    destruct (padStart_zeros limit _ _); eauto.
  - intros text Ht Hs Hlim Hlen. unfold formatAmount.
    rewrite Ht, Hs. cbn [negb]. unfold padStart_zeros.
    fold (pad_target h decimals).
    destruct (pad_target h decimals <=? _) eqn:Hle; [apply Z.leb_le in Hle; lia|].
    destruct (limit <? pad_target h decimals) eqn:Hlt;
      [reflexivity|apply Z.ltb_ge in Hlt; lia].
  - intros d Heff Hlim Hmax. unfold pad_target. rewrite Heff.
    cbn [plus_int to_integer]. lia.
Qed.

Lemma formatAmount_edges_witness :
  (exists t, formatAmount sample_limit sample_host (JNum 1500) (Int 2) = Ok t) /\
  formatAmount 10 sample_host (JStr "-12") (Int 40) = Ok "-12".
Proof.
  split.
  - apply (proj1 (proj2 (formatAmount_edges sample_limit sample_host
                           (JNum 1500) (Int 2)))). reflexivity.
  - apply (proj1 (proj2 (proj2 (formatAmount_edges 10 sample_host (JStr "-12")
                                    (Int 40)))) "-12");
      try reflexivity; simpl; lia.
Defined.




(** ** Rows: direction and counterparty *)

Lemma lower_char_idem (c : ascii) : lower_char (lower_char c) = lower_char c.
Proof. destruct c as [[] [] [] [] [] [] [] []]; reflexivity. Qed.

Lemma toLowerCase_idem (s : string) : toLowerCase (toLowerCase s) = toLowerCase s.
Proof.
  unfold toLowerCase. rewrite list_ascii_of_string_of_list_ascii, map_map.
  f_equal. apply map_ext. intros c. apply lower_char_idem.
Qed.

Lemma lower_of_string (s : string) : lower_of (JStr s) = Ok (toLowerCase s).
Proof.
  unfold lower_of, or_else. cbn [truthy].
  destruct (string_eqb s "") eqn:Hs; [|reflexivity].
  apply String.eqb_eq in Hs. subst s. reflexivity.
Qed.

(** X11.  The direction of a row compares addresses without regard to
    letter case.  For a transfer whose sender and recipient are strings,
    the row is OUT when the sender is the watched address, IN when it is
    not and the recipient is, OTHER when neither is; a transfer from the
    watched address to itself is OUT.  The counterparty shown is the
    recipient of an OUT row, the sender of an IN row, and empty otherwise.
    Writing the watched address in small letters changes no direction. *)
Theorem row_direction (item : entry) (tx : NormalizedTx) (f t : string) :
  from tx = JStr f -> to tx = JStr t ->
  exists r,
    row_of item tx = Ok r /\ owner r = item /\ transfer r = tx /\
    (toLowerCase f = toLowerCase (address item) ->
     direction r = "OUT" /\ counterparty r = JStr t) /\
    (toLowerCase f <> toLowerCase (address item) ->
     toLowerCase t = toLowerCase (address item) ->
     direction r = "IN" /\ counterparty r = JStr f) /\
    (toLowerCase f <> toLowerCase (address item) ->
     toLowerCase t <> toLowerCase (address item) ->
     direction r = "OTHER" /\ counterparty r = JStr "") /\
    (forall r', row_of {| address := toLowerCase (address item);
                          label := label item |} tx = Ok r' ->
                direction r' = direction r).
Proof.
  intros Hf Ht. unfold row_of. rewrite Hf, Ht, !lower_of_string.
  cbn [address]. rewrite toLowerCase_idem.
  eexists. split; [reflexivity|]. split; [reflexivity|]. split; [reflexivity|].
  unfold counterparty. cbn [direction transfer].
  destruct (string_eqb (toLowerCase f) (toLowerCase (address item))) eqn:H1;
    [apply String.eqb_eq in H1 | apply String.eqb_neq in H1];
    (destruct (string_eqb (toLowerCase t) (toLowerCase (address item))) eqn:H2;
     [apply String.eqb_eq in H2 | apply String.eqb_neq in H2]);
    cbn [string_eqb String.eqb Ascii.eqb Bool.eqb]; rewrite ?Hf, ?Ht;
    repeat split; try congruence; try tauto;
    intros r' [= <-]; reflexivity.
Qed.

Lemma row_direction_witness :
  exists r,
    row_of {| address := "0xABCdef"; label := "mine" |}
      {| source := "etherscan"; hash := JStr "0xAA"; time := Int 1;
         from := JStr "0xabcDEF"; to := JStr "0xAbCdEf";
         tokenSymbol := JUndefined; tokenName := JUndefined;
         contractAddress := JUndefined; value := JStr "1"; decimals := Int 18 |}
    = Ok r /\ direction r = "OUT" /\ counterparty r = JStr "0xAbCdEf".
Proof.
  destruct (row_direction {| address := "0xABCdef"; label := "mine" |}
      {| source := "etherscan"; hash := JStr "0xAA"; time := Int 1;
         from := JStr "0xabcDEF"; to := JStr "0xAbCdEf";
         tokenSymbol := JUndefined; tokenName := JUndefined;
         contractAddress := JUndefined; value := JStr "1"; decimals := Int 18 |}
      "0xabcDEF" "0xAbCdEf" eq_refl eq_refl)
    as (r & Hr & _ & _ & Hout & _).
  exists r. split; [exact Hr|]. apply Hout. reflexivity.
Defined.

(** ** Loading the transfers *)

Lemma collect_app (E : env) (pre post : list entry) (w : world) :
  collect E (pre ++ post) w =
  match collect E pre w with
  | (Ok rs, w1) =>
      match collect E post w1 with
      | (Ok more, w2) => (Ok (rs ++ more)%list, w2)
      | (Throw e, w2) => (Throw e, w2)
      end
  | (Throw e, w1) => (Throw e, w1)
  end.
Proof.
  revert w. induction pre as [|item pre IH]; intros w.
  - simpl. unfold ret. destruct (collect E post w) as [[more|e] w2]; reflexivity.
  - cbn [app collect]. unfold bind, lift, ret.
    destruct (fetchTokenTransfers E _ _ w) as [[txs|e] w1]; [|reflexivity].
    destruct (rows_of item txs) as [rs|e]; [|reflexivity].
    rewrite IH.
    destruct (collect E pre w1) as [[rs1|e] w2]; [|reflexivity].
    destruct (collect E post w2) as [[more|e] w3]; [|reflexivity].
    rewrite app_assoc. reflexivity.
Qed.

(** X12.  A load is all or nothing.  When the fetch for one entry fails,
    the load ends there: no row is shown, not even those of the entries
    fetched before it, the error shown is that failure's text, the
    loading flag is off, and the entries after it are not fetched. *)
Theorem loadTransfers_failure (E : env) (describe : exn -> string)
        (unspecified : list Row -> list Row) (pre post : list entry)
        (item : entry) (w w1 w2 : world) (rs : list Row) (e : exn) :
  collect E pre w = (Ok rs, w1) ->
  fetchTokenTransfers E (address item) (JObj [("offset", JNum 50)]) w1
  = (Throw e, w2) ->
  loadTransfers E describe unspecified (pre ++ item :: post) w
  = ({| rows := []; loading := false; error := error_text describe e |}, w2).
Proof.
  intros Hpre Hfail. unfold loadTransfers.
  rewrite collect_app, Hpre. cbn [collect]. unfold bind at 1.
  rewrite Hfail. reflexivity.
Qed.

Lemma loadTransfers_failure_witness :
  loadTransfers (sample_env (Some "EK") None one_address_up) (fun _ => "")
    (fun l => l)
    ([sample_entry] ++ {| address := "0x9"; label := "" |} :: [sample_entry]) w0
  = ({| rows := []; loading := false; error := "HTTP 500: down" |},
     snd (fetchTokenTransfers (sample_env (Some "EK") None one_address_up) "0x9"
            (JObj [("offset", JNum 50)])
            (snd (collect (sample_env (Some "EK") None one_address_up)
                    [sample_entry] w0)))).
Proof.
  apply (loadTransfers_failure (sample_env (Some "EK") None one_address_up)
           (fun _ => "") (fun l => l) [sample_entry] [sample_entry]
           {| address := "0x9"; label := "" |} w0
           (snd (collect (sample_env (Some "EK") None one_address_up)
                   [sample_entry] w0))
           _
           (match fst (collect (sample_env (Some "EK") None one_address_up)
                         [sample_entry] w0) with
            | Ok rs => rs
            | Throw _ => []
            end)
           (Error "HTTP 500: down")).
  - reflexivity.
  - reflexivity.
Defined.

Lemma insert_by_time_perm (r : Row) (l : list Row) :
  Permutation (r :: l) (insert_by_time r l).
Proof.
  induction l as [|x l IH]; simpl; [apply Permutation_refl|].
  destruct (time_value r <? time_value x).
  - eapply Permutation_trans; [apply perm_swap|]. apply perm_skip. exact IH.
  - apply Permutation_refl.
Qed.

Lemma sort_by_time_perm (l : list Row) : Permutation l (sort_by_time l).
Proof.
  induction l as [|r l IH]; simpl; [constructor|].
  eapply Permutation_trans; [apply perm_skip; exact IH|].
  apply insert_by_time_perm.
Qed.

Lemma insert_by_time_sorted (r : Row) (l : list Row) :
  StronglySorted (fun a b => time_value b <= time_value a) l ->
  StronglySorted (fun a b => time_value b <= time_value a) (insert_by_time r l).
Proof.
  induction 1 as [|x l Hs IH Hx]; simpl.
  - constructor; constructor.
  - destruct (time_value r <? time_value x) eqn:Hlt.
    + apply Z.ltb_lt in Hlt. constructor; [exact IH|].
      eapply Permutation_Forall; [apply insert_by_time_perm|].
      constructor; [lia|exact Hx].
    + apply Z.ltb_ge in Hlt. constructor; [constructor; assumption|].
      constructor; [exact Hlt|].
      eapply Forall_impl; [|exact Hx]. simpl. intros a Ha. lia.
Qed.

Lemma sort_by_time_sorted (l : list Row) :
  StronglySorted (fun a b => time_value b <= time_value a) (sort_by_time l).
Proof.
  induction l as [|r l IH]; simpl; [constructor|].
  apply insert_by_time_sorted. exact IH.
Qed.

(** Rows already in order, latest first, are left as they are: equal
    times keep their order. *)
Lemma sort_by_time_fixed (l : list Row) :
  StronglySorted (fun a b => time_value b <= time_value a) l ->
  sort_by_time l = l.
Proof.
  induction 1 as [|x l Hs IH Hx]; [reflexivity|].
  simpl. rewrite IH. destruct l as [|y l]; [reflexivity|].
  simpl. inversion Hx as [|? ? Hy _]; subst.
  destruct (time_value x <? time_value y) eqn:Hlt; [|reflexivity].
  apply Z.ltb_lt in Hlt. lia.
Qed.

(** X13.  A load that succeeds shows every row once, latest first.  When
    every entry is fetched and every row has a valid date, the rows shown
    are a rearrangement of the rows collected, none lost and none added,
    in order of time from the latest to the earliest; rows collected
    already in that order are shown unchanged.  No error is shown and the
    loading flag is off. *)
Theorem loadTransfers_success (E : env) (describe : exn -> string)
        (unspecified : list Row -> list Row) (watchlist : list entry)
        (w w' : world) (out : list Row) :
  collect E watchlist w = (Ok out, w') ->
  forallb dated out = true ->
  exists shown,
    loadTransfers E describe unspecified watchlist w
    = ({| rows := shown; loading := false; error := "" |}, w') /\
    Permutation out shown /\
    StronglySorted (fun a b => time_value b <= time_value a) shown /\
    (StronglySorted (fun a b => time_value b <= time_value a) out -> shown = out).
Proof.
  intros Hrun Hdated. unfold loadTransfers, sort_rows. rewrite Hrun, Hdated.
  eexists. split; [reflexivity|]. split; [apply sort_by_time_perm|].
  split; [apply sort_by_time_sorted|apply sort_by_time_fixed].
Qed.

Lemma loadTransfers_success_witness :
  exists shown,
    loadTransfers (sample_env (Some "EK") None one_address_up) (fun _ => "")
      (fun l => l) [sample_entry; sample_entry] w0
    = ({| rows := shown; loading := false; error := "" |},
       snd (collect (sample_env (Some "EK") None one_address_up)
              [sample_entry; sample_entry] w0)) /\
    List.length shown = 2%nat.
Proof.
  destruct (loadTransfers_success (sample_env (Some "EK") None one_address_up)
              (fun _ => "") (fun l => l) [sample_entry; sample_entry] w0
              (snd (collect (sample_env (Some "EK") None one_address_up)
                      [sample_entry; sample_entry] w0))
              (match fst (collect (sample_env (Some "EK") None one_address_up)
                            [sample_entry; sample_entry] w0) with
               | Ok rs => rs
               | Throw _ => []
               end) eq_refl eq_refl)
    as (shown & Hrun & Hperm & _).
  exists shown. split; [exact Hrun|].
  rewrite <- (Permutation_length Hperm). reflexivity.
Defined.

Lemma collect_no_keys (E : env) (watchlist : list entry) (w : world) :
  hasAnyApiKey E = false -> collect E watchlist w = (Ok [], w).
Proof.
  unfold hasAnyApiKey. intros Hk. apply orb_false_iff in Hk as [Hc He].
  induction watchlist as [|item rest IH]; [reflexivity|].
  cbn [collect]. unfold bind at 1. unfold fetchTokenTransfers.
  rewrite Hc, He. unfold ret at 1. cbn iota.
  unfold bind at 1. unfold lift. cbn [rows_of]. cbn iota.
  unfold bind at 1. rewrite IH. reflexivity.
Qed.

(** X14.  Without any credential a load is silent: whatever the watch
    list, it shows no row and no error, turns the loading flag off, and
    sends nothing. *)
Theorem loadTransfers_no_keys (E : env) (describe : exn -> string)
        (unspecified : list Row -> list Row) (watchlist : list entry)
        (w : world) :
  hasAnyApiKey E = false ->
  loadTransfers E describe unspecified watchlist w
  = ({| rows := []; loading := false; error := "" |}, w).
Proof.
  intros Hk. unfold loadTransfers. rewrite collect_no_keys by assumption.
  reflexivity.
Qed.

Lemma loadTransfers_no_keys_witness :
  loadTransfers (sample_env None (Some "") both_up) (fun _ => "") (fun l => l)
    [sample_entry; sample_entry] w0
  = ({| rows := []; loading := false; error := "" |}, w0).
Proof.
  apply (loadTransfers_no_keys (sample_env None (Some "") both_up)).
  reflexivity.
Defined.

Lemma collect_requests (E : env) (watchlist : list entry) (w : world) :
  exists l,
    requests (snd (collect E watchlist w)) = (requests w ++ l)%list /\
    (List.length l <= 2 * List.length watchlist)%nat.
Proof.
  revert w. induction watchlist as [|item rest IH]; intros w.
  - exists []. simpl. rewrite app_nil_r. auto.
  - cbn [collect]. unfold bind at 1.
    destruct (fetchTokenTransfers_appends E (address item)
                (JObj [("offset", JNum 50)]) w) as (l1 & Hl1 & Hs1).
    assert (Hlen1 : (List.length l1 <= 2)%nat).
    { destruct Hs1 as [->|[(u & ->)|[(u & ->)|(u1 & u2 & ->)]]]; simpl; lia. }
    destruct (fetchTokenTransfers E _ _ w) as [[txs|e] w1]; cbn [snd] in Hl1.
    + unfold bind at 1. unfold lift.
      destruct (rows_of item txs) as [rs|e].
      * unfold bind at 1.
        destruct (IH w1) as (l2 & Hl2 & Hlen2).
        destruct (collect E rest w1) as [[more|e] w2];
          unfold ret; cbn [snd] in Hl2 |- *;
          exists (l1 ++ l2)%list; rewrite Hl2, Hl1, app_assoc;
          (split; [reflexivity|]); rewrite length_app; simpl; lia.
      * exists l1. cbn [snd]. split; [exact Hl1|]. simpl. lia.
    + exists l1. cbn [snd]. split; [exact Hl1|]. simpl. lia.
Qed.

(** X17.  A load sends at most two requests for each entry of the watch
    list, one per provider, and only ever appends to the request log,
    whether it ends with rows or with an error. *)
Theorem loadTransfers_request_bound (E : env) (describe : exn -> string)
        (unspecified : list Row -> list Row) (watchlist : list entry)
        (w : world) :
  exists l,
    requests (snd (loadTransfers E describe unspecified watchlist w))
    = (requests w ++ l)%list /\
    (List.length l <= 2 * List.length watchlist)%nat.
Proof.
  destruct (collect_requests E watchlist w) as (l & Hl & Hlen).
  exists l. split; [|exact Hlen]. unfold loadTransfers.
  destruct (collect E watchlist w) as [[out|e] w']; exact Hl.
Qed.

(** ** The watch list *)

Lemma trim_start_fixed (l : list ascii) :
  match l with [] => True | c :: _ => is_space c = false end ->
  trim_start l = l.
Proof. destruct l as [|c l]; [reflexivity|]. simpl. intros ->. reflexivity. Qed.

Lemma trim_start_head (l : list ascii) :
  match trim_start l with [] => True | c :: _ => is_space c = false end.
Proof.
  induction l as [|c l IH]; simpl; [exact I|].
  destruct (is_space c) eqn:Hc; [exact IH|exact Hc].
Qed.

Lemma trim_start_suffix (l : list ascii) :
  exists sp, l = (sp ++ trim_start l)%list.
Proof.
  induction l as [|c l (sp & Hsp)]; [exists []; reflexivity|].
  simpl. destruct (is_space c).
  - exists (c :: sp). simpl. rewrite <- Hsp. reflexivity.
  - exists []. reflexivity.
Qed.

(** What [trim] returns has no white space at either end. *)
Lemma trim_idem (s : string) : trim (trim s) = trim s.
Proof.
  unfold trim. rewrite list_ascii_of_string_of_list_ascii. f_equal.
  set (a := trim_start (list_ascii_of_string s)).
  set (b := trim_start (rev a)).
  assert (Hb : match b with [] => True | c :: _ => is_space c = false end)
    by apply trim_start_head.
  assert (Hr : match rev b with [] => True | c :: _ => is_space c = false end).
  { destruct (trim_start_suffix (rev a)) as (sp & Hsp). fold b in Hsp.
    apply (f_equal (@rev ascii)) in Hsp.
    rewrite rev_involutive, rev_app_distr in Hsp.
    pose proof (trim_start_head (list_ascii_of_string s)) as Ha. fold a in Ha.
    destruct (rev b) as [|c r]; [exact I|].
    rewrite Hsp in Ha. exact Ha. }
  rewrite (trim_start_fixed (rev b) Hr), rev_involutive.
  rewrite (trim_start_fixed b Hb). reflexivity.
Qed.

Lemma filter_index_past {A} (l : list A) (i idx : nat) :
  (idx < i)%nat -> filter_index i idx l = l.
Proof.
  revert i. induction l as [|a l IH]; intros i Hlt; [reflexivity|].
  simpl. destruct (Nat.eqb i idx) eqn:He.
  - apply Nat.eqb_eq in He. lia.
  - rewrite IH by lia. reflexivity.
Qed.

Lemma filter_index_spec {A} (l : list A) (i k : nat) :
  filter_index i (i + k) l = (firstn k l ++ skipn (S k) l)%list.
Proof.
  revert i k. induction l as [|a l IH]; intros i k.
  - destruct k; reflexivity.
  - simpl. destruct k as [|k].
    + rewrite Nat.add_0_r, Nat.eqb_refl. simpl.
      apply filter_index_past. lia.
    + destruct (Nat.eqb i (i + S k)) eqn:He.
      * apply Nat.eqb_eq in He. lia.
      * simpl. f_equal.
        replace (i + S k)%nat with (S i + k)%nat by lia. apply IH.
Qed.

Lemma filter_index_from_zero {A} (l : list A) (idx : nat) :
  filter_index 0 idx l = (firstn idx l ++ skipn (S idx) l)%list.
Proof. exact (filter_index_spec l 0 idx). Qed.

(** X15.  What the watch list keeps.  [addAddress] ignores an address
    that is blank once trimmed, and otherwise appends one entry with the
    trimmed address and label, without looking for duplicates, and clears
    both inputs.  Both [addAddress] and [removeItem] keep every entry
    clean, that is with an address that is not empty and has no white
    space around it, and after either has written, local storage holds the
    JSON text of the list shown. *)
Theorem watchlist_invariant (h : Host) (accepts : string -> bool)
        (st st' : watch) :
  Forall clean_entry (watchlist st) ->
  (trim (addressInput st) = "" -> addAddress h accepts st = Some st) /\
  (addAddress h accepts st = Some st' ->
   trim (addressInput st) <> "" ->
   watchlist st'
   = (watchlist st ++ [{| address := trim (addressInput st);
                          label := trim (labelInput st) |}])%list /\
   addressInput st' = "" /\ labelInput st' = "" /\
   Forall clean_entry (watchlist st') /\
   stored st' = Some (stringify_watchlist h (watchlist st'))) /\
  (forall idx, removeItem h accepts idx st = Some st' ->
               Forall clean_entry (watchlist st') /\
               stored st' = Some (stringify_watchlist h (watchlist st'))).
Proof.
  intros Hclean. split; [|split].
  - intros Hblank. unfold addAddress. rewrite Hblank. reflexivity.
  - intros Hadd Hne. unfold addAddress in Hadd.
    destruct (string_eqb (trim (addressInput st)) "") eqn:Hb.
    { apply String.eqb_eq in Hb. contradiction. }
    destruct (accepts _); [|discriminate].
    injection Hadd as <-. cbn [watchlist addressInput labelInput stored].
    repeat split.
    apply Forall_app. split; [exact Hclean|].
    constructor; [|constructor].
    unfold clean_entry. cbn [address label].
    rewrite !trim_idem. auto.
  - intros idx Hrem. unfold removeItem in Hrem.
    destruct (accepts _); [|discriminate].
    injection Hrem as <-. cbn [watchlist stored]. split; [|reflexivity].
    rewrite filter_index_from_zero.
    apply Forall_app. split.
    + rewrite <- (firstn_skipn idx (watchlist st)) in Hclean.
      apply Forall_app in Hclean. tauto.
    + rewrite <- (firstn_skipn (S idx) (watchlist st)) in Hclean.
      apply Forall_app in Hclean. tauto.
Qed.

Lemma watchlist_invariant_witness :
  exists st',
    addAddress sample_host (fun _ => true) sample_watch = Some st' /\
    watchlist st' = [{| address := "0xabc"; label := "cold wallet" |}] /\
    Forall clean_entry (watchlist st').
Proof.
  exists {| addressInput := ""; labelInput := "";
            watchlist := [{| address := "0xabc"; label := "cold wallet" |}];
            stored := Some (stringify_watchlist sample_host
                              [{| address := "0xabc"; label := "cold wallet" |}]) |}.
  split; [reflexivity|].
  destruct (proj1 (proj2 (watchlist_invariant sample_host (fun _ => true)
              sample_watch
              {| addressInput := ""; labelInput := "";
                 watchlist := [{| address := "0xabc"; label := "cold wallet" |}];
                 stored := Some (stringify_watchlist sample_host
                                   [{| address := "0xabc";
                                       label := "cold wallet" |}]) |}
              (Forall_nil _))) eq_refl)
    as (Hw & _ & _ & Hc & _).
  - discriminate.
  - split; [exact Hw|exact Hc].
Defined.

(** X16.  [removeItem] takes out exactly the entry at the index given
    and keeps the others in order; an index past the end changes nothing;
    and removing the last index right after an [addAddress] that added an
    entry gives back the list as it was before. *)
Theorem removeItem_removes_one (h : Host) (accepts : string -> bool)
        (idx : nat) (st st' : watch) :
  removeItem h accepts idx st = Some st' ->
  watchlist st' = (firstn idx (watchlist st) ++ skipn (S idx) (watchlist st))%list /\
  ((List.length (watchlist st) <= idx)%nat -> watchlist st' = watchlist st) /\
  ((idx < List.length (watchlist st))%nat ->
   S (List.length (watchlist st')) = List.length (watchlist st)) /\
  (forall st0, addAddress h accepts st0 = Some st ->
               trim (addressInput st0) <> "" ->
               idx = List.length (watchlist st0) ->
               watchlist st' = watchlist st0).
Proof.
  intros Hrem. unfold removeItem in Hrem.
  destruct (accepts _); [|discriminate].
  injection Hrem as <-. cbn [watchlist].
  rewrite filter_index_from_zero.
  split; [reflexivity|]. split; [|split].
  - intros Hlen. rewrite firstn_all2, skipn_all2 by lia. apply app_nil_r.
  - intros Hlt. rewrite length_app, length_firstn, length_skipn. lia.
  - intros st0 Hadd Hne ->. unfold addAddress in Hadd.
    destruct (string_eqb (trim (addressInput st0)) "") eqn:Hb.
    { apply String.eqb_eq in Hb. contradiction. }
    destruct (accepts _); [|discriminate].
    injection Hadd as <-. cbn [watchlist].
    rewrite firstn_app, firstn_all, Nat.sub_diag, skipn_all2.
    + simpl. rewrite !app_nil_r. reflexivity.
    + rewrite length_app. simpl. lia.
Qed.

Lemma removeItem_removes_one_witness :
  exists st',
    removeItem sample_host (fun _ => true) 1
      {| addressInput := ""; labelInput := "";
         watchlist := [{| address := "0x1"; label := "a" |};
                       {| address := "0x2"; label := "b" |};
                       {| address := "0x3"; label := "c" |}];
         stored := None |} = Some st' /\
    watchlist st' = [{| address := "0x1"; label := "a" |};
                     {| address := "0x3"; label := "c" |}].
Proof.
  eexists. split; [reflexivity|].
  exact (proj1 (removeItem_removes_one sample_host (fun _ => true) 1
           {| addressInput := ""; labelInput := "";
              watchlist := [{| address := "0x1"; label := "a" |};
                            {| address := "0x2"; label := "b" |};
                            {| address := "0x3"; label := "c" |}];
              stored := None |} _ eq_refl)).
Defined.

(** ** The kinds of failure *)

Lemma get_throws (v : jsval) (k : string) (e : exn) :
  get v k = Throw e -> e = TypeError.
Proof. destruct v; simpl; congruence. Qed.

Lemma bind_options_throws (options : options_arg) (e : exn) :
  bind_options options = Throw e -> e = TypeError.
Proof. destruct options; simpl; congruence. Qed.

Lemma sort_text_throws (h : Host) (o : jsval) (e : exn) :
  sort_text h o = Throw e -> e = TypeError.
Proof.
  unfold sort_text. destruct o; try apply ToString_throws. discriminate.
Qed.

Lemma etherscan_parse_throws (E : env) (body : jsval) (w w' : world) (e : exn) :
  etherscan_parse E body w = (Throw e, w') ->
  e = TypeError \/ exists m, e = Error ("Etherscan error (V2): " ++ m).
Proof.
  assert (Hmap : forall txs w1 e1 w2,
             mapM (fun tx => normalizeTokenTx E tx "etherscan") txs w1
             = (Throw e1, w2) -> e1 = TypeError).
  { apply mapM_throws. intros tx w1 e1 w2. apply normalizeTokenTx_throws. }
  unfold etherscan_parse.
  destruct (get_opt body "result") as [| |b|n|s|txs|ps|fn fd];
    try (intros H; left; eapply Hmap; exact H);
    unfold bind, lift, throw, ret;
    (destruct (get body "status") as [st|e1] eqn:Hst;
     [|intros [= <- _]; left; eapply get_throws; exact Hst]);
    (destruct (get body "message") as [ms|e1] eqn:Hms;
     [|intros [= <- _]; left; eapply get_throws; exact Hms]);
    (destruct (strict_eq_str st "1" || strict_eq_str ms "OK")).
  all: try (destruct (ToString (host E)
                        (or_else (get_opt body "message") (JStr "")))
              as [s1|e1] eqn:H1;
            [|intros [= <- _]; left; eapply ToString_throws; exact H1];
            destruct (no_transactions_test s1); [discriminate|];
            destruct (ToString (host E)
                        (or_else (or_else (get_opt body "message") (JStr ""))
                                 (JStr "ERROR")))
              as [s2|e2] eqn:H2;
            [|intros [= <- _]; left; eapply ToString_throws; exact H2];
            match goal with
            | |- context [match ToString ?hh ?d with _ => _ end] =>
                destruct (ToString hh d) as [s3|e3] eqn:H3
            end;
            [|intros [= <- _]; left; eapply ToString_throws; exact H3];
            intros [= <- _]; right; eexists; reflexivity).
  all: unfold or_else; cbn [truthy];
    try (intros H; left; eapply Hmap; exact H);
    try (intros [= <- _]; left; reflexivity).
  all: match goal with
       | |- context [if ?c then _ else _] => destruct c
       end;
    try (intros H; left; eapply Hmap; exact H);
    intros [= <- _]; left; reflexivity.
Qed.

(** X18.  The failures of the adapters are of few kinds.  The Etherscan
    adapter ends only with its missing-credential error, with an exception
    of [fetchJSON] passed on as it is, with a [TypeError] of the language,
    or with an error whose text begins "Etherscan error (V2): ".  The
    Covalent adapter ends only with its missing-credential error, with an
    exception of [fetchJSON], or with a [TypeError]: it has no error text
    of its own for a response it cannot use. *)
Theorem adapters_failure_kinds (E : env) (address : string)
        (options : options_arg) (w w' : world) (e : exn) :
  (fetchEtherscanTokenTransfers E address options w = (Throw e, w') ->
   e = Error "Missing REACT_APP_ETHERSCAN_KEY" \/
   e = TypeError \/
   (exists u, fst (fetchJSON E u None w) = Throw e) \/
   (exists m, e = Error ("Etherscan error (V2): " ++ m))) /\
  (fetchCovalentTokenTransfers E address options w = (Throw e, w') ->
   e = Error "Missing REACT_APP_COVALENT_KEY" \/
   e = TypeError \/
   (exists u i, fst (fetchJSON E u i w) = Throw e)).
Proof.
  split.
  - unfold fetchEtherscanTokenTransfers, throw.
    unfold bind at 1. unfold lift at 1.
    destruct (bind_options options) as [o|e0] eqn:H0.
    2: { intros [= <- _]. right. left. eapply bind_options_throws. exact H0. }
    cbv zeta.
    destruct (negb (configured (etherscanKey E))).
    { intros H. injection H as <- _. auto. }
    unfold bind at 1. unfold lift at 1.
    destruct (ToString (host E) (param o "chainId" (JNum 1)))
      as [s1|e1] eqn:H1.
    2: { intros [= <- _]. right. left. eapply ToString_throws. exact H1. }
    unfold bind at 1. unfold lift at 1.
    destruct (ToString (host E) (param o "page" (JNum 1)))
      as [s2|e2] eqn:H2.
    2: { intros [= <- _]. right. left. eapply ToString_throws. exact H2. }
    unfold bind at 1. unfold lift at 1.
    destruct (ToString (host E) (param o "offset" (JNum 50)))
      as [s3|e3] eqn:H3.
    2: { intros [= <- _]. right. left. eapply ToString_throws. exact H3. }
    unfold bind at 1. unfold lift at 1.
    destruct (sort_text (host E) o) as [s4|e4] eqn:H4.
    2: { intros [= <- _]. right. left. eapply sort_text_throws. exact H4. }
    unfold bind at 1.
    destruct (fetchJSON E _ None w) as [[body|e5] w1] eqn:Hf.
    + intros Hp. apply etherscan_parse_throws in Hp as [->|Hp]; auto.
    + intros [= <- _]. right. right. left. eexists. rewrite Hf. reflexivity.
  - unfold fetchCovalentTokenTransfers, throw.
    unfold bind at 1. unfold lift at 1.
    destruct (bind_options options) as [o|e0] eqn:H0.
    2: { intros [= <- _]. right. left. eapply bind_options_throws. exact H0. }
    cbv zeta.
    destruct (negb (configured (covalentKey E))).
    { intros H. injection H as <- _. auto. }
    unfold bind at 1. unfold lift at 1.
    destruct (ToString (host E) (param o "chainId" (JNum 1)))
      as [s1|e1] eqn:H1.
    2: { intros [= <- _]. right. left. eapply ToString_throws. exact H1. }
    unfold bind at 1. unfold lift at 1.
    destruct (ToString (host E) (param o "pageSize" (JNum 50)))
      as [s2|e2] eqn:H2.
    2: { intros [= <- _]. right. left. eapply ToString_throws. exact H2. }
    unfold bind at 1.
    destruct (fetchJSON E _ _ w) as [[body|e5] w1] eqn:Hf.
    + intros Hp. apply covalent_flatten_throws in Hp. auto.
    + intros [= <- _]. right. right. eexists _, _. rewrite Hf. reflexivity.
Qed.

Lemma adapters_failure_kinds_witness :
  Error "Etherscan error (V2): NOTOK: Max rate limit reached"
  = Error "Missing REACT_APP_ETHERSCAN_KEY" \/
  Error "Etherscan error (V2): NOTOK: Max rate limit reached" = TypeError \/
  (exists u,
      fst (fetchJSON (etherscan_env
                        (JObj [("status", JStr "0"); ("message", JStr "NOTOK");
                               ("result", JStr "Max rate limit reached")]))
             u None w0)
      = Throw (Error "Etherscan error (V2): NOTOK: Max rate limit reached")) \/
  (exists m, Error "Etherscan error (V2): NOTOK: Max rate limit reached"
             = Error ("Etherscan error (V2): " ++ m)).
Proof.
  apply (proj1 (adapters_failure_kinds
                  (etherscan_env
                     (JObj [("status", JStr "0"); ("message", JStr "NOTOK");
                            ("result", JStr "Max rate limit reached")]))
                  "0xabc" app_options w0
                  (snd (fetchEtherscanTokenTransfers
                          (etherscan_env
                             (JObj [("status", JStr "0"); ("message", JStr "NOTOK");
                                    ("result", JStr "Max rate limit reached")]))
                          "0xabc" app_options w0))
                  (Error "Etherscan error (V2): NOTOK: Max rate limit reached"))).
  reflexivity.
Defined.
